(** * SOVREN B200 inference engine: a shallow embedding and its properties

    The embedding follows [src/sovren_b200_engine/src/inference_engine.h] and
    [inference_engine.cpp].  The class [SOVRENInferenceEngine] becomes the
    record [Engine]; what the methods touch outside the object (the C heap
    behind [malloc]/[free], and the two output streams) becomes the record
    [Host].  A method is a function from its arguments and a [World] (engine
    and host) to its result and the next [World].

    Conventions.
    - [int] is a 32-bit two's complement integer, [size_t] is [unsigned long]
      (64 bits, as the header's typedef has it on LP64); both are carried by
      [Z] and the wrap-around of [size_t] arithmetic is written out.
    - [void*] is an address in [Z]; [nullptr] is [0].
    - [float] is carried by its IEEE-754 binary32 bit pattern (a 32-bit [Z]):
      the engine never does arithmetic on a float, it only stores and copies
      them, so bit patterns are all that is observable.
    - [std::vector<T>] is [list T]; [std::unordered_map<void*, size_t>] is
      [gmap Z Z].  The header carries place-holder declarations of these
      containers for editors without a tool chain; the methods are read with
      the containers' standard meaning ([find], [erase], [clear], [resize],
      copy assignment).
    - The preprocessor switch [CUDA_AVAILABLE] is a boolean parameter of every
      method whose body depends on it.
    - Storage for [std::vector] is assumed to be available, except in
      [initialize], whose handler catches the failure; [malloc], whose
      result the code tests, may fail. *)

From Stdlib Require Import ZArith Lia List String Ascii.
From stdpp Require Import base tactics option list gmap fin_maps strings.

Local Open Scope Z_scope.

(** ** Machine integers *)

Definition SIZE_MAX : Z := 2 ^ 64 - 1.
Definition INT_MIN : Z := - 2 ^ 31.
Definition INT_MAX : Z := 2 ^ 31 - 1.

Definition is_size_t (n : Z) : Prop := 0 <= n <= SIZE_MAX.
Definition is_int (n : Z) : Prop := INT_MIN <= n <= INT_MAX.

(** Unsigned 64-bit arithmetic: [a += b] and [a -= b] on [size_t]. *)
Definition wrap_size_t (n : Z) : Z := n mod 2 ^ 64.
Definition size_add (a b : Z) : Z := wrap_size_t (a + b).
Definition size_sub (a b : Z) : Z := wrap_size_t (a - b).

(** The conversion [int -> size_t] that a call such as [v.resize(n)] with an
    [int] argument performs. *)
Definition size_of_int (n : Z) : Z := wrap_size_t n.

(** ** Floats, by bit pattern *)

Definition float32 : Type := Z.
Definition f32_zero : float32 := 0.                  (* 0.0f *)
Definition f32_one : float32 := 1065353216.          (* 1.0f  = 0x3F800000 *)
Definition f32_0_7 : float32 := 1060320051.          (* 0.7f  = 0x3F333333 *)
Definition f32_0_9 : float32 := 1063675494.          (* 0.9f  = 0x3F666666 *)
Definition f32_1em6 : float32 := 897988541.          (* 1e-6f = 0x358637BD *)
Definition f32_1e6 : float32 := 1232348160.          (* 1e6f  = 0x49742400 *)

(** ** The header's structs *)

Record ModelConfig := mkModelConfig {
  vocab_size : Z;
  hidden_size : Z;
  intermediate_size : Z;
  num_hidden_layers : Z;
  num_attention_heads : Z;
  num_key_value_heads : Z;
  max_position_embeddings : Z;
  rms_norm_eps : float32;
  rope_theta : float32;
  rope_scaling : Z
}.

(** The default member initialisers of [struct ModelConfig]. *)
Definition default_ModelConfig : ModelConfig := {|
  vocab_size := 152064;
  hidden_size := 8192;
  intermediate_size := 29568;
  num_hidden_layers := 80;
  num_attention_heads := 64;
  num_key_value_heads := 8;
  max_position_embeddings := 32768;
  rms_norm_eps := f32_1em6;
  rope_theta := f32_1e6;
  rope_scaling := 1
|}.

Record GPUContext := mkGPUContext {
  device_id : Z;
  stream : Z;
  cublas_handle : Z;
  cudnn_handle : Z;
  nccl_comm : Z;
  workspace : Z;
  workspace_size : Z
}.

(** A value-initialised [GPUContext], as [vector::resize] creates it. *)
Definition zero_GPUContext : GPUContext := mkGPUContext 0 0 0 0 0 0 0.

Definition set_device_id (i : Z) (c : GPUContext) : GPUContext :=
  mkGPUContext i (stream c) (cublas_handle c) (cudnn_handle c) (nccl_comm c)
    (workspace c) (workspace_size c).

(** The data members of [class SOVRENInferenceEngine] that some method reads
    or writes.  [weights_] and [states_] are declared and never used. *)
Record Engine := mkEngine {
  config_ : ModelConfig;
  gpu_contexts_ : list GPUContext;
  num_gpus_ : Z;
  tensor_parallel_size_ : Z;
  pipeline_parallel_size_ : Z;
  total_memory_allocated_ : Z;
  memory_map_ : gmap Z Z;
  performance_metrics_ : Z
}.

(** ** The host: C heap and output streams *)

(** What [operator<<] appends to a stream. *)
Inductive out_item :=
  | OStr (s : string)
  | OInt (n : Z)
  | OSize (n : Z)
  | OWhat.            (* the text of [e.what()], which the library chooses *)

Definition endl : out_item := OStr (String (ascii_of_nat 10) EmptyString).

(** [heap] maps the base address of every live [malloc] block to its size.
    [free_log] lists the blocks handed to [free], latest first.  [heap_ub]
    records that [free] was called on an address that is neither null nor
    the base of a live block (a double or wild free). *)
Record Host := mkHost {
  heap : gmap Z Z;
  free_log : list Z;
  heap_ub : bool;
  cout : list out_item;
  cerr : list out_item
}.

Record World := mkWorld {
  engine : Engine;
  host : Host
}.

Definition print_cout (items : list out_item) (h : Host) : Host :=
  mkHost (heap h) (free_log h) (heap_ub h) (cout h ++ items) (cerr h).

Definition print_cerr (items : list out_item) (h : Host) : Host :=
  mkHost (heap h) (free_log h) (heap_ub h) (cout h) (cerr h ++ items).

(** A block occupies at least one byte, so that two live blocks never share
    their base address even when [malloc(0)] returns a non-null pointer. *)
Definition block_end (p sz : Z) : Z := p + Z.max 1 sz.

Definition blocks_apart (p sz q sz' : Z) : Prop :=
  block_end p sz <= q \/ block_end q sz' <= p.

(** What [malloc(size)] may return on heap [h]: null, or the base of a block
    inside the address space that overlaps no live block. *)
Definition malloc_admits (h : gmap Z Z) (size r : Z) : Prop :=
  r = 0 \/
  (0 < r /\ block_end r size <= 2 ^ 64 /\
   map_Forall (fun q sz' => blocks_apart r size q sz') h).

(** [malloc(size)] returning [r]. *)
Definition malloc (size r : Z) (h : Host) : Host :=
  if decide (r = 0) then h
  else mkHost (<[r := size]> (heap h)) (free_log h) (heap_ub h) (cout h) (cerr h).

(** [free(p)]. *)
Definition free (p : Z) (h : Host) : Host :=
  if decide (p = 0) then h
  else match heap h !! p with
       | Some _ =>
           mkHost (delete p (heap h)) (p :: free_log h) (heap_ub h) (cout h) (cerr h)
       | None =>
           mkHost (heap h) (p :: free_log h) true (cout h) (cerr h)
       end.

(** ** Outcomes of a call that may throw *)

Inductive exn := length_error.

Inductive outcome (A : Type) :=
  | Returns (a : A)
  | Throws (e : exn)
  | Undefined.          (* signed overflow *)
Arguments Returns {A} a.
Arguments Throws {A} e.
Arguments Undefined {A}.

(** [v.resize(n, x)]: the first [n] elements are kept, and copies of [x] fill
    the vector up to length [n]. *)
Definition resize {A : Type} (n : nat) (x : A) (v : list A) : list A :=
  take n v ++ replicate (n - length v) x.

(** The largest size a [std::vector] accepts for elements of [elem_bytes]
    bytes; [float] has 4 and [GPUContext] has 56 (an [int], padding, five
    pointers and a [size_t]). *)
Definition vector_max_size (elem_bytes : Z) : Z := (2 ^ 63 - 1) / elem_bytes.
Definition sizeof_float : Z := 4.
Definition sizeof_GPUContext : Z := 56.

(** ** The methods of [SOVRENInferenceEngine] *)

Definition with_host (w : World) (h : Host) : World := mkWorld (engine w) h.

Definition set_num_gpus (n : Z) (e : Engine) : Engine :=
  mkEngine (config_ e) (gpu_contexts_ e) n (tensor_parallel_size_ e)
    (pipeline_parallel_size_ e) (total_memory_allocated_ e) (memory_map_ e)
    (performance_metrics_ e).

Definition set_gpu_contexts (l : list GPUContext) (e : Engine) : Engine :=
  mkEngine (config_ e) l (num_gpus_ e) (tensor_parallel_size_ e)
    (pipeline_parallel_size_ e) (total_memory_allocated_ e) (memory_map_ e)
    (performance_metrics_ e).

Definition set_memory (total : Z) (m : gmap Z Z) (e : Engine) : Engine :=
  mkEngine (config_ e) (gpu_contexts_ e) (num_gpus_ e) (tensor_parallel_size_ e)
    (pipeline_parallel_size_ e) total m (performance_metrics_ e).

Section Methods.

(** The value of the macro [CUDA_AVAILABLE] the engine is built with. *)
Variable CUDA_AVAILABLE : bool.

(** [SOVRENInferenceEngine::SOVRENInferenceEngine(int num_gpus)], run on
    host [h]. *)
Definition construct (num_gpus : Z) (h : Host) : World :=
  let e := mkEngine default_ModelConfig [] num_gpus 1 1 0 ∅ 0 in
  if CUDA_AVAILABLE then
    mkWorld e
      (print_cout [OStr "Initializing SOVREN Inference Engine with ";
                   OInt num_gpus; OStr " GPUs"; endl] h)
  else
    mkWorld (set_num_gpus 0 e)
      (print_cout [OStr "Initializing SOVREN Inference Engine in CPU-only mode";
                   endl] h).

(** [initialize()].  With CUDA the context vector is resized to
    [num_gpus_].  [resize] throws [std::length_error] when the count,
    converted to [size_t], exceeds the vector's maximal size (a negative
    [num_gpus_] converts to such a value), and [std::bad_alloc] when the
    vector has to grow and no storage is to be had; [storage_ok] tells
    whether the storage is there, and a vector's capacity is taken to be its
    length.  Either exception leaves the vector as it was, and the handler,
    which catches every [std::exception], reports it. *)
Definition initialize (storage_ok : bool) (w : World) : bool * World :=
  if CUDA_AVAILABLE then
    let n := size_of_int (num_gpus_ (engine w)) in
    if decide (vector_max_size sizeof_GPUContext < n) then
      (false,
       with_host w (print_cerr [OStr "Failed to initialize CUDA: "; OWhat; endl]
                      (host w)))
    else if decide ((length (gpu_contexts_ (engine w)) < Z.to_nat n)%nat /\
                    storage_ok = false) then
      (false,
       with_host w (print_cerr [OStr "Failed to initialize CUDA: "; OWhat; endl]
                      (host w)))
    else
      let resized := resize (Z.to_nat n) zero_GPUContext (gpu_contexts_ (engine w)) in
      let ctxs :=
        imap (fun i c =>
                if decide (Z.of_nat i < num_gpus_ (engine w))
                then set_device_id (Z.of_nat i) c else c) resized in
      (true, mkWorld (set_gpu_contexts ctxs (engine w)) (host w))
  else
    (true,
     with_host w (print_cout [OStr "CPU-only mode - no GPU initialization needed";
                              endl] (host w))).

(** [load_model(model_path)]. *)
Definition load_model (model_path : string) (w : World) : bool * World :=
  (true,
   with_host w (print_cout [OStr "Loading model from: "; OStr model_path; endl]
                  (host w))).

(** [setup_multi_gpu()]. *)
Definition setup_multi_gpu (w : World) : bool * World :=
  if CUDA_AVAILABLE then
    if decide (num_gpus_ (engine w) <= 1) then (true, w) else (true, w)
  else (true, w).

(** [allocate_gpu_memory(size, device_id)]; [r] is what [malloc(size)]
    returns in the CPU build. *)
Definition allocate_gpu_memory (r : Z) (size : Z) (device_id : Z) (w : World)
  : Z * World :=
  let e := engine w in
  if CUDA_AVAILABLE then
    (0, mkWorld (set_memory (size_add (total_memory_allocated_ e) size)
                   (memory_map_ e) e)
          (host w))
  else
    let ptr := r in
    let h := malloc size ptr (host w) in
    if decide (ptr ≠ 0) then
      (ptr, mkWorld (set_memory (size_add (total_memory_allocated_ e) size)
                       (<[ptr := size]> (memory_map_ e)) e)
              h)
    else (ptr, mkWorld e h).

(** [free_gpu_memory(ptr)]. *)
Definition free_gpu_memory (ptr : Z) (w : World) : World :=
  if decide (ptr = 0) then w
  else if CUDA_AVAILABLE then w
  else
    let e := engine w in
    match memory_map_ e !! ptr with
    | Some sz =>
        mkWorld (set_memory (size_sub (total_memory_allocated_ e) sz)
                   (delete ptr (memory_map_ e)) e)
          (free ptr (host w))
    | None => w
    end.

(** [optimize_memory_layout()]. *)
Definition optimize_memory_layout (w : World) : World :=
  with_host w (print_cout [OStr "Optimizing memory layout..."; endl] (host w)).

(** [forward_pass(input_tokens, output_logits, batch_size)].  The second
    component of the result is [output_logits] after the call.  The
    product [config_.vocab_size * batch_size] is computed in [int]. *)
Definition forward_pass (input_tokens : list Z) (output_logits : list float32)
    (batch_size : Z) (w : World) : outcome (bool * list float32) * World :=
  let w' :=
    with_host w
      (print_cout [OStr "Running forward pass with ";
                   OSize (Z.of_nat (length input_tokens)); OStr " tokens"; endl]
         (host w)) in
  let n := vocab_size (config_ (engine w)) * batch_size in
  if decide (INT_MIN <= n <= INT_MAX) then
    if decide (vector_max_size sizeof_float < size_of_int n)
    then (Throws length_error, w')
    else (Returns (true, resize (Z.to_nat (size_of_int n)) f32_zero output_logits),
          w')
  else (Undefined, w').

(** [generate_tokens(input_tokens, output_tokens, max_new_tokens,
    temperature, top_p)].  The second component of the result is
    [output_tokens] after the call. *)
Definition generate_tokens (input_tokens output_tokens : list Z)
    (max_new_tokens : Z) (temperature top_p : float32) (w : World)
  : (bool * list Z) * World :=
  let w' :=
    with_host w
      (print_cout [OStr "Generating "; OInt max_new_tokens; OStr " tokens"; endl]
         (host w)) in
  let output_tokens := input_tokens in
  ((true, output_tokens), w').

(** [process_batch(input_batches, output_batches)]. *)
Definition process_batch (input_batches output_batches : list (list Z))
    (w : World) : (bool * list (list Z)) * World :=
  let output_batches := input_batches in
  ((true, output_batches), w).

(** [warmup_kernels()]. *)
Definition warmup_kernels (w : World) : World :=
  if CUDA_AVAILABLE then
    with_host w (print_cout [OStr "Warming up CUDA kernels..."; endl] (host w))
  else
    with_host w (print_cout [OStr "CPU mode - no kernel warmup needed"; endl]
                   (host w)).

(** [optimize_for_throughput()] and [optimize_for_latency()]. *)
Definition optimize_for_throughput (w : World) : World :=
  with_host w (print_cout [OStr "Optimizing for throughput..."; endl] (host w)).

Definition optimize_for_latency (w : World) : World :=
  with_host w (print_cout [OStr "Optimizing for latency..."; endl] (host w)).

(** [synchronize_gpus()], [all_reduce_gradients()], [broadcast_weights()]. *)
Definition synchronize_gpus (w : World) : bool * World :=
  if CUDA_AVAILABLE then
    if decide (num_gpus_ (engine w) <= 1) then (true, w) else (true, w)
  else (true, w).

Definition all_reduce_gradients (w : World) : bool * World :=
  if CUDA_AVAILABLE then (true, w) else (true, w).

Definition broadcast_weights (w : World) : bool * World :=
  if CUDA_AVAILABLE then (true, w) else (true, w).

(** [print_performance_stats()]; the division is unsigned. *)
Definition print_performance_stats (w : World) : World :=
  let e := engine w in
  with_host w
    (print_cout
       [OStr "=== SOVREN Inference Engine Performance Stats ==="; endl;
        OStr "Number of GPUs: "; OInt (num_gpus_ e); endl;
        OStr "Memory allocated: ";
        OSize (total_memory_allocated_ e / (1024 * 1024)); OStr " MB"; endl;
        OStr "Tensor parallel size: "; OInt (tensor_parallel_size_ e); endl;
        OStr "Pipeline parallel size: "; OInt (pipeline_parallel_size_ e); endl]
       (host w)).

(** [validate_model_integrity()]. *)
Definition validate_model_integrity (w : World) : bool * World :=
  (true,
   with_host w (print_cout [OStr "Validating model integrity..."; endl] (host w))).

(** The loop of [cleanup()]: [free(pair.first)] for every pair of
    [memory_map_], in the order the container enumerates them. *)
Definition free_all (pairs : list (Z * Z)) (h : Host) : Host :=
  fold_left (fun h pair => free (fst pair) h) pairs h.

(** [cleanup()].  [pairs] is [memory_map_] as the range-for loop enumerates
    it; the order is the container's choice.  The loop over [gpu_contexts_]
    in the CUDA build has an empty body. *)
Definition cleanup (pairs : list (Z * Z)) (w : World) : World :=
  let h := print_cout [OStr "Cleaning up SOVREN Inference Engine..."; endl]
             (host w) in
  let h := free_all pairs h in
  mkWorld (set_memory 0 ∅ (engine w)) h.

(** [~SOVRENInferenceEngine()]. *)
Definition destruct_engine (pairs : list (Z * Z)) (w : World) : World :=
  cleanup pairs w.

(** The getters. *)
Definition get_config (w : World) : ModelConfig := config_ (engine w).
Definition get_num_gpus (w : World) : Z := num_gpus_ (engine w).
Definition get_memory_usage (w : World) : Z := total_memory_allocated_ (engine w).

End Methods.

(** ** Runs of the engine *)

(** A call of a public method, with its arguments.  [Call_allocate_gpu_memory]
    also carries the answer of [malloc], [Call_cleanup] the order in which
    the loop meets the pairs of [memory_map_], and [Call_initialize] whether
    storage for the contexts is to be had. *)
Inductive call :=
  | Call_initialize (storage_ok : bool)
  | Call_load_model (model_path : string)
  | Call_setup_multi_gpu
  | Call_allocate_gpu_memory (size : Z) (device_id : Z) (malloc_result : Z)
  | Call_free_gpu_memory (ptr : Z)
  | Call_optimize_memory_layout
  | Call_forward_pass (input_tokens : list Z) (output_logits : list float32)
      (batch_size : Z)
  | Call_generate_tokens (input_tokens output_tokens : list Z) (max_new_tokens : Z)
      (temperature top_p : float32)
  | Call_process_batch (input_batches output_batches : list (list Z))
  | Call_warmup_kernels
  | Call_optimize_for_throughput
  | Call_optimize_for_latency
  | Call_synchronize_gpus
  | Call_all_reduce_gradients
  | Call_broadcast_weights
  | Call_print_performance_stats
  | Call_validate_model_integrity
  | Call_cleanup (pairs : list (Z * Z)).

(** The world after a call. *)
Definition exec (cuda : bool) (c : call) (w : World) : World :=
  match c with
  | Call_initialize storage_ok => snd (initialize cuda storage_ok w)
  | Call_load_model path => snd (load_model path w)
  | Call_setup_multi_gpu => snd (setup_multi_gpu cuda w)
  | Call_allocate_gpu_memory size dev r => snd (allocate_gpu_memory cuda r size dev w)
  | Call_free_gpu_memory ptr => free_gpu_memory cuda ptr w
  | Call_optimize_memory_layout => optimize_memory_layout w
  | Call_forward_pass toks logits bs => snd (forward_pass toks logits bs w)
  | Call_generate_tokens toks out n t p => snd (generate_tokens toks out n t p w)
  | Call_process_batch ins outs => snd (process_batch ins outs w)
  | Call_warmup_kernels => warmup_kernels cuda w
  | Call_optimize_for_throughput => optimize_for_throughput w
  | Call_optimize_for_latency => optimize_for_latency w
  | Call_synchronize_gpus => snd (synchronize_gpus cuda w)
  | Call_all_reduce_gradients => snd (all_reduce_gradients cuda w)
  | Call_broadcast_weights => snd (broadcast_weights cuda w)
  | Call_print_performance_stats => print_performance_stats w
  | Call_validate_model_integrity => snd (validate_model_integrity w)
  | Call_cleanup pairs => cleanup pairs w
  end.

(** [pairs] lists the pairs of [m], each once, in some order. *)
Definition enumerates (pairs : list (Z * Z)) (m : gmap Z Z) : Prop :=
  NoDup pairs.*1 /\ list_to_map pairs = m.

(** A call is well-formed when its arguments inhabit their C++ types, the
    answer of [malloc] is one the heap admits, [forward_pass] does not
    overflow [int], and the loop of [cleanup] enumerates [memory_map_]. *)
Definition call_ok (cuda : bool) (w : World) (c : call) : Prop :=
  match c with
  | Call_allocate_gpu_memory size dev r =>
      is_size_t size /\ is_int dev /\
      (cuda = false -> malloc_admits (heap (host w)) size r)
  | Call_free_gpu_memory ptr => is_size_t ptr
  | Call_forward_pass _ _ bs =>
      is_int bs /\ is_int (vocab_size (config_ (engine w)) * bs)
  | Call_generate_tokens _ _ n _ _ => is_int n
  | Call_cleanup pairs => enumerates pairs (memory_map_ (engine w))
  | _ => True
  end.

(** The live blocks of a heap lie inside the address space, above null, and
    are pairwise apart. *)
Definition heap_ok (h : gmap Z Z) : Prop :=
  map_Forall (fun p sz => 0 < p /\ 0 <= sz /\ block_end p sz <= 2 ^ 64) h /\
  (forall p sz q sz', h !! p = Some sz -> h !! q = Some sz' -> p ≠ q ->
                      blocks_apart p sz q sz').

Definition host_ok (h : Host) : Prop :=
  heap_ok (heap h) /\ heap_ub h = false.

(** The worlds an engine can be in: it is constructed on a sound host and
    then receives well-formed calls. *)
Inductive reachable (cuda : bool) : World -> Prop :=
  | reachable_construct (num_gpus : Z) (h : Host) :
      is_int num_gpus -> host_ok h -> reachable cuda (construct cuda num_gpus h)
  | reachable_call (w : World) (c : call) :
      reachable cuda w -> call_ok cuda w c -> reachable cuda (exec cuda c w).

(** The sum of the sizes recorded in an allocation map. *)
Definition sum_sizes (m : gmap Z Z) : Z :=
  map_fold (fun _ sz acc => sz + acc) 0 m.

(** A host with an empty heap and nothing printed. *)
Definition fresh_host : Host := mkHost ∅ [] false [] [].

(** ** Invariants of a run *)

(** The host is sound and every recorded allocation is a live block of the
    size recorded. *)
Definition tracked (w : World) : Prop :=
  host_ok (host w) /\ memory_map_ (engine w) ⊆ heap (host w).

(** The counter equals the bytes recorded. *)
Definition balanced (w : World) : Prop :=
  total_memory_allocated_ (engine w) = sum_sizes (memory_map_ (engine w)).

(** The invariant of section 3 of the specification on a configuration and a
    tensor-parallel degree. *)
Definition config_invariant (c : ModelConfig) (tensor_parallel_size : Z) : Prop :=
  hidden_size c mod num_attention_heads c = 0 /\
  num_attention_heads c mod num_key_value_heads c = 0 /\
  num_attention_heads c mod tensor_parallel_size = 0.

(** [head_dim = hidden_size / num_attention_heads], in [int]. *)
Definition head_dim (c : ModelConfig) : Z :=
  Z.quot (hidden_size c) (num_attention_heads c).

(** ** Decision procedures for the side conditions of a call *)

#[global] Instance is_size_t_dec (n : Z) : Decision (is_size_t n).
Proof. unfold is_size_t. apply _. Defined.

#[global] Instance is_int_dec (n : Z) : Decision (is_int n).
Proof. unfold is_int. apply _. Defined.

#[global] Instance malloc_admits_dec (h : gmap Z Z) (size r : Z) :
  Decision (malloc_admits h size r).
Proof. unfold malloc_admits, blocks_apart. apply _. Defined.

#[global] Instance enumerates_dec (pairs : list (Z * Z)) (m : gmap Z Z) :
  Decision (enumerates pairs m).
Proof. unfold enumerates. apply _. Defined.

#[global] Instance call_ok_dec (cuda : bool) (w : World) (c : call) :
  Decision (call_ok cuda w c).
Proof. destruct c; simpl; apply _. Defined.

(** ** A sample run *)

(** A CPU-build engine on a fresh host that allocates 16 bytes (placed at
    4096), 32 bytes (placed at 8192) and 64 bytes (placed at 12288), then
    releases the first block. *)
Definition sample_calls : list call :=
  [Call_allocate_gpu_memory 16 0 4096;
   Call_allocate_gpu_memory 32 0 8192;
   Call_allocate_gpu_memory 64 1 12288;
   Call_free_gpu_memory 4096].

Definition run (cuda : bool) (cs : list call) (w : World) : World :=
  fold_left (fun w c => exec cuda c w) cs w.

Definition sample_world : World := run false sample_calls (construct false 8 fresh_host).

(** A run is well-formed when each call is, in the world it is made in. *)
Fixpoint run_ok (cuda : bool) (cs : list call) (w : World) : Prop :=
  match cs with
  | [] => True
  | c :: cs => call_ok cuda w c /\ run_ok cuda cs (exec cuda c w)
  end.

#[global] Instance run_ok_dec (cuda : bool) (cs : list call) :
  forall w, Decision (run_ok cuda cs w).
Proof. induction cs as [|c cs IH]; simpl; intros w; apply _. Defined.

(** ** The specification's vocabulary, for comparison with the code *)

(** The error kinds of section 7 of the specification. *)
Inductive error_kind :=
  | OutOfMemory
  | CapacityExceeded
  | ShapeMismatch
  | MissingWeight
  | InvalidHandle
  | CollectiveTimeout.

(** How a call ends for its caller: a normal return, or a failure of one of
    the kinds above. *)
Inductive call_result (A : Type) :=
  | Ok (a : A)
  | Failed (e : error_kind).
Arguments Ok {A} a.
Arguments Failed {A} e.

(** [free_gpu_memory] as its caller sees it: the method is declared [void],
    holds no [throw] and calls nothing that throws, so every call returns. *)
Definition free_gpu_memory_result (cuda : bool) (ptr : Z) (w : World)
  : call_result World :=
  Ok (free_gpu_memory cuda ptr w).

(** The contract of section 4.1 for [free], in the specification's words: a
    handle that is not outstanding is refused with [InvalidHandle]. *)
Definition spec_free (ptr : Z) (w : World) : call_result World :=
  match memory_map_ (engine w) !! ptr with
  | Some _ => Ok (free_gpu_memory false ptr w)
  | None => Failed InvalidHandle
  end.

(** The admission rule of section 4.1, in the specification's words, for a
    ceiling [ceiling]: a request that would bring the bytes allocated above
    the ceiling yields no allocation and records nothing. *)
Definition enforces_ceiling (cuda : bool) (ceiling : Z) : Prop :=
  forall (w : World) (size dev r : Z),
    reachable cuda w ->
    call_ok cuda w (Call_allocate_gpu_memory size dev r) ->
    ceiling < total_memory_allocated_ (engine w) + size ->
    fst (allocate_gpu_memory cuda r size dev w) = 0 /\
    engine (snd (allocate_gpu_memory cuda r size dev w)) = engine w.

(** Some ceiling that a [size_t] request can exceed is enforced. *)
Definition some_ceiling_enforced (cuda : bool) : Prop :=
  exists ceiling : Z, 0 <= ceiling < SIZE_MAX /\ enforces_ceiling cuda ceiling.

(** The tokens of [output_tokens] that follow the prompt. *)
Definition generated_tokens (input_tokens output_tokens : list Z) : list Z :=
  drop (length input_tokens) output_tokens.

(** ** Kinds of calls *)

(** The calls that reach the allocator. *)
Definition is_allocator_call (c : call) : bool :=
  match c with
  | Call_allocate_gpu_memory _ _ _ | Call_free_gpu_memory _ | Call_cleanup _ => true
  | _ => false
  end.

(** ** The program of [main.cpp] *)

(** [std::stoi] on a narrow string, base 10, as [strtol] reads it: leading
    white space is skipped, one sign is accepted, the digits that follow are
    read and the rest of the string is ignored.  Without a digit the call
    throws [std::invalid_argument]; a value outside [int] throws
    [std::out_of_range]. *)
Inductive stoi_error := invalid_argument | out_of_range.

Definition is_space (a : ascii) : bool :=
  let n := Z.of_nat (nat_of_ascii a) in
  (n =? 32) || ((9 <=? n) && (n <=? 13)).

Definition digit_value (a : ascii) : option Z :=
  let n := Z.of_nat (nat_of_ascii a) in
  if (48 <=? n) && (n <=? 57) then Some (n - 48) else None.

Fixpoint skip_spaces (s : string) : string :=
  match s with
  | String a rest => if is_space a then skip_spaces rest else s
  | EmptyString => s
  end.

Fixpoint read_digits (acc : Z) (s : string) : Z :=
  match s with
  | String a rest =>
      match digit_value a with
      | Some d => read_digits (10 * acc + d) rest
      | None => acc
      end
  | EmptyString => acc
  end.

Definition has_digit (s : string) : bool :=
  match s with
  | String a _ => match digit_value a with Some _ => true | None => false end
  | EmptyString => false
  end.

Definition stoi (s : string) : Z + stoi_error :=
  let s := skip_spaces s in
  let '(negative, s) :=
    match s with
    | String "-" rest => (true, rest)
    | String "+" rest => (false, rest)
    | _ => (false, s)
    end in
  if has_digit s then
    let v := read_digits 0 s in
    let v := if negative then - v else v in
    if decide (INT_MIN <= v <= INT_MAX) then inl v else inr out_of_range
  else inr invalid_argument.

(** [print_banner()]. *)
Definition banner : string := "
╔═══════════════════════════════════════════════════════════════╗
║                    SOVREN B200 ENGINE                        ║
║              Next-Generation AI Inference Engine             ║
║                                                               ║
║  🚀 Optimized for NVIDIA B200 Architecture                   ║
║  ⚡ Multi-GPU Tensor Parallelism                             ║
║  🧠 Advanced Memory Management                               ║
║  🔥 Ultra-Low Latency Inference                              ║
╚═══════════════════════════════════════════════════════════════╝
".

Definition print_banner (h : Host) : Host := print_cout [OStr banner; endl] h.

(** [print_system_info()]; [ndebug] tells whether [NDEBUG] is defined. *)
Definition print_system_info (cuda ndebug : bool) (h : Host) : Host :=
  let h := print_cout [OStr "
=== System Information ==="; endl] h in
  let h :=
    if cuda then
      print_cout [OStr "🔧 Optimization Level: Maximum Performance"; endl]
        (print_cout [OStr "🎯 Target Architecture: B200 (sm_100)"; endl]
           (print_cout [OStr "✅ CUDA Support: ENABLED"; endl] h))
    else
      print_cout [OStr "💻 Running in CPU fallback mode"; endl]
        (print_cout [OStr "⚠️  CUDA Support: DISABLED (CPU-only mode)"; endl] h) in
  print_cout [OStr "🏗️  Build Configuration: ";
              OStr (if ndebug then "Release" else "Debug"); endl] h.

(** The statements of [main] that follow a successful [initialize], up to
    [return 0] and the destructor of [engine].  [num_gpus] is the local
    variable of [main]; [init_ms] and [inference_us] are the two durations
    the clock gives, and [rate] is the text [operator<<] prints for the
    [double] [output_tokens.size() * 1000000.0 / inference_duration].  The
    result is the exit status and the host the program leaves.  The
    destructor's loop meets the pairs of [memory_map_] in the container's
    order, for which [map_to_list] stands. *)
Definition main_after_initialize (cuda : bool) (num_gpus : Z) (argv : list string)
    (init_ms inference_us : Z) (rate : string) (w : World) : Z * Host :=
  let w := with_host w (print_cout [OStr "✅ Engine initialized successfully in "; OInt init_ms; OStr "ms"; endl]
                          (host w)) in
  let model_path :=
    if decide (2 < length argv)%nat then nth 2 argv EmptyString else "models/sovren_b200_model" in
  let w := with_host w (print_cout [OStr "
📦 Loading model from: "; OStr model_path; endl] (host w)) in
  let '(loaded, w) := load_model model_path w in
  if negb loaded then
    let w := with_host w (print_cerr [OStr "❌ Failed to load model!"; endl] (host w)) in
    (-1, host (destruct_engine (map_to_list (memory_map_ (engine w))) w))
  else
    let w :=
      if decide (1 < num_gpus) then
        let w := with_host w (print_cout [OStr "
🔗 Setting up multi-GPU configuration..."; endl] (host w)) in
        let '(set_up, w) := setup_multi_gpu cuda w in
        if negb set_up
        then with_host w (print_cerr [OStr "⚠️  Multi-GPU setup failed, continuing with single GPU"; endl] (host w))
        else w
      else w in
    let w := with_host w (print_cout [OStr "
🔥 Warming up inference kernels..."; endl] (host w)) in
    let w := warmup_kernels cuda w in
    let w := with_host w (print_cout [OStr "
⚡ Optimizing for maximum throughput..."; endl] (host w)) in
    let w := optimize_for_throughput w in
    let w := with_host w (print_cout [OStr "
🧪 Running test inference..."; endl] (host w)) in
    let test_tokens := [1; 2; 3; 4; 5] in
    let '((success, output_tokens), w) :=
      generate_tokens test_tokens [] 10 f32_0_7 f32_0_9 w in
    let w :=
      if success then
        with_host w
          (print_cout [OStr "🎯 Tokens per second: "; OStr rate; endl]
             (print_cout [OStr "⏱️  Inference time: "; OInt inference_us; OStr " microseconds"; endl]
                (print_cout [OStr "✅ Test inference completed successfully!"; endl] (host w))))
      else with_host w (print_cerr [OStr "❌ Test inference failed!"; endl] (host w)) in
    let w := with_host w (print_cout [OStr "
"; endl] (host w)) in
    let w := print_performance_stats w in
    let w := with_host w (print_cout [OStr "
🔍 Validating model integrity..."; endl] (host w)) in
    let '(valid, w) := validate_model_integrity w in
    let w :=
      if valid
      then with_host w (print_cout [OStr "✅ Model validation passed!"; endl] (host w))
      else with_host w (print_cerr [OStr "⚠️  Model validation warnings detected"; endl] (host w)) in
    let w := with_host w (print_cout [OStr "
🎉 SOVREN B200 Engine ready for production!"; endl] (host w)) in
    let w := with_host w (print_cout [OStr "💡 Use this engine for ultra-fast AI inference at scale"; endl] (host w)) in
    let w := with_host w (print_cout [OStr "
⏸️  Press Ctrl+C to shutdown..."; endl] (host w)) in
    (0, host (destruct_engine (map_to_list (memory_map_ (engine w))) w)).

(** The GPU count [main] asks for: 8, or [std::stoi(argv[1])] when there is
    an argument. *)
Definition requested_num_gpus (argv : list string) : Z + stoi_error :=
  if decide (1 < length argv)%nat then stoi (nth 1 argv EmptyString) else inl 8.

(** [main(argc, argv)]: [argv] lists the [argc] arguments, the program's name
    first, and [storage_ok] tells whether [initialize] finds storage for the
    contexts.  The only call of the [try] block that can throw is
    [std::stoi], before the engine exists; the handler reports it and
    returns -1. *)
Definition main (cuda ndebug : bool) (argv : list string) (storage_ok : bool)
    (init_ms inference_us : Z) (rate : string) (h : Host) : Z * Host :=
  let h := print_banner h in
  let h := print_system_info cuda ndebug h in
  let h := print_cout [OStr "
🚀 Initializing SOVREN B200 Inference Engine..."; endl] h in
  match requested_num_gpus argv with
  | inr _ => (-1, print_cerr [OStr "💥 Fatal error: "; OWhat; endl] h)
  | inl num_gpus =>
      let w := construct cuda num_gpus h in
      let '(initialized, w) := initialize cuda storage_ok w in
      if negb initialized then
        let w := with_host w (print_cerr [OStr "❌ Failed to initialize inference engine!"; endl] (host w)) in
        (-1, host (destruct_engine (map_to_list (memory_map_ (engine w))) w))
      else main_after_initialize cuda num_gpus argv init_ms inference_us rate w
  end.

(** * Lemmas *)

(** ** Sums over allocation maps *)

Lemma sum_sizes_empty : sum_sizes ∅ = 0.
Proof. unfold sum_sizes. apply map_fold_empty. Qed.

Lemma sum_sizes_insert (m : gmap Z Z) (p sz : Z) :
  m !! p = None -> sum_sizes (<[p := sz]> m) = sz + sum_sizes m.
Proof.
  intros Hp. unfold sum_sizes.
  rewrite map_fold_insert_L; [reflexivity | | exact Hp].
  intros; lia.
Qed.

Lemma sum_sizes_delete (m : gmap Z Z) (p sz : Z) :
  m !! p = Some sz -> sum_sizes m = sz + sum_sizes (delete p m).
Proof.
  intros Hp.
  rewrite <- (insert_delete_id m p sz Hp) at 1.
  apply sum_sizes_insert, lookup_delete_eq.
Qed.

(** ** Bounding the recorded bytes by the address space *)

Lemma heap_ok_empty : heap_ok ∅.
Proof.
  split; [apply map_Forall_empty|].
  intros p sz q sz' Hp. rewrite lookup_empty in Hp. discriminate.
Qed.

Lemma heap_ok_subseteq (m h : gmap Z Z) : m ⊆ h -> heap_ok h -> heap_ok m.
Proof.
  intros Hsub [Hin Hap]. split.
  - intros p sz Hp. apply (Hin p sz). eapply lookup_weaken; eauto.
  - intros p sz q sz' Hp Hq. apply Hap; eapply lookup_weaken; eauto.
Qed.

Lemma heap_ok_delete (h : gmap Z Z) (p : Z) : heap_ok h -> heap_ok (delete p h).
Proof. apply heap_ok_subseteq, delete_subseteq. Qed.

Lemma malloc_admits_fresh (h : gmap Z Z) (size r : Z) :
  r ≠ 0 -> malloc_admits h size r -> h !! r = None.
Proof.
  intros Hr [?|(_ & _ & Hall)]; [contradiction|].
  destruct (h !! r) as [sz'|] eqn:E; [|reflexivity].
  specialize (Hall r sz' E). unfold blocks_apart, block_end in Hall. lia.
Qed.

Lemma heap_ok_insert (h : gmap Z Z) (size r : Z) :
  0 <= size -> r ≠ 0 -> malloc_admits h size r -> heap_ok h ->
  heap_ok (<[r := size]> h).
Proof.
  intros Hsize Hr Hadm [Hin Hap].
  pose proof (malloc_admits_fresh h size r Hr Hadm) as Hfresh.
  destruct Hadm as [?|(Hpos & Hend & Hall)]; [contradiction|].
  split.
  - apply map_Forall_insert_2; [auto | exact Hin].
  - intros p sz q sz' Hp Hq Hne.
    destruct (decide (p = r)) as [->|Hpr]; destruct (decide (q = r)) as [->|Hqr].
    + contradiction.
    + rewrite lookup_insert_eq in Hp. rewrite lookup_insert_ne in Hq by auto.
      inversion Hp; subst. apply (Hall q sz' Hq).
    + rewrite lookup_insert_eq in Hq. rewrite lookup_insert_ne in Hp by auto.
      inversion Hq; subst. specialize (Hall p sz Hp).
      unfold blocks_apart in *. tauto.
    + rewrite lookup_insert_ne in Hp, Hq by auto. apply (Hap p sz q sz'); auto.
Qed.

(** A non-empty map has a block with the greatest base address. *)
Lemma greatest_base (m : gmap Z Z) :
  m ≠ ∅ -> exists p sz, m !! p = Some sz /\ forall q sz', m !! q = Some sz' -> q <= p.
Proof.
  induction m as [|i x m Hi IH] using map_ind; [congruence|]. intros _.
  destruct (decide (m = ∅)) as [->|Hne].
  - exists i, x. split; [apply lookup_insert_eq|].
    intros q sz' Hq. destruct (decide (q = i)) as [->|Hqi]; [lia|].
    rewrite lookup_insert_ne, lookup_empty in Hq by auto. discriminate.
  - destruct (IH Hne) as (p & sz & Hp & Hmax).
    destruct (decide (p <= i)) as [Hle|Hgt].
    + exists i, x. split; [apply lookup_insert_eq|].
      intros q sz' Hq. destruct (decide (q = i)) as [->|Hqi]; [lia|].
      rewrite lookup_insert_ne in Hq by auto. specialize (Hmax q sz' Hq). lia.
    + exists p, sz. split.
      * rewrite lookup_insert_ne; [exact Hp|]. intros ->. congruence.
      * intros q sz' Hq. destruct (decide (q = i)) as [->|Hqi]; [lia|].
        rewrite lookup_insert_ne in Hq by auto. eauto.
Qed.

(** Pairwise apart blocks between [lo] and [hi] hold at most [hi - lo]
    bytes. *)
Lemma sum_sizes_between (n : nat) :
  forall (m : gmap Z Z) (lo hi : Z),
    size m = n -> lo <= hi ->
    map_Forall (fun p sz => lo <= p /\ 0 <= sz /\ block_end p sz <= hi) m ->
    (forall p sz q sz', m !! p = Some sz -> m !! q = Some sz' -> p ≠ q ->
                        blocks_apart p sz q sz') ->
    0 <= sum_sizes m <= hi - lo.
Proof.
  induction n as [|n IH]; intros m lo hi Hsize Hlohi Hin Hap.
  - apply map_size_empty_inv in Hsize. subst m. rewrite sum_sizes_empty. lia.
  - assert (m ≠ ∅) as Hne by (apply map_size_non_empty_iff; lia).
    destruct (greatest_base m Hne) as (p & sz & Hp & Hmax).
    rewrite (sum_sizes_delete m p sz Hp).
    destruct (Hin p sz Hp) as (Hlo & Hsz & Hend).
    assert (0 <= sum_sizes (delete p m) <= p - lo) as Hrest.
    { apply IH.
      - rewrite map_size_delete, Hp, Hsize. simpl. lia.
      - exact Hlo.
      - intros q sz' Hq. apply lookup_delete_Some in Hq as [Hqp Hq].
        destruct (Hin q sz' Hq) as (Hlo' & Hsz' & _).
        repeat split; auto.
        specialize (Hmax q sz' Hq).
        destruct (Hap q sz' p sz Hq Hp) as [H|H]; [congruence|exact H|].
        unfold block_end in H. lia.
      - intros q1 s1 q2 s2 H1 H2. apply lookup_delete_Some in H1 as [_ H1].
        apply lookup_delete_Some in H2 as [_ H2]. eauto. }
    unfold block_end in Hend. lia.
Qed.

Lemma sum_sizes_heap_ok (m : gmap Z Z) : heap_ok m -> 0 <= sum_sizes m <= SIZE_MAX.
Proof.
  intros [Hin Hap].
  pose proof (sum_sizes_between (size m) m 1 (2 ^ 64) eq_refl ltac:(lia)) as H.
  unfold SIZE_MAX. apply H; [|exact Hap].
  intros p sz Hp. destruct (Hin p sz Hp) as (? & ? & ?). repeat split; auto; lia.
Qed.

(** ** What the calls preserve *)

Lemma exec_static (cuda : bool) (c : call) (w : World) :
  config_ (engine (exec cuda c w)) = config_ (engine w) /\
  tensor_parallel_size_ (engine (exec cuda c w)) = tensor_parallel_size_ (engine w) /\
  pipeline_parallel_size_ (engine (exec cuda c w)) = pipeline_parallel_size_ (engine w).
Proof.
  destruct c; simpl; auto.
  - unfold initialize. destruct cuda; [|simpl; auto].
    repeat destruct (decide _); simpl; auto.
  - unfold setup_multi_gpu. destruct cuda; [destruct (decide _)|]; simpl; auto.
  - unfold allocate_gpu_memory. destruct cuda; [simpl; auto|].
    destruct (decide _); simpl; auto.
  - unfold free_gpu_memory. destruct (decide _); [auto|].
    destruct cuda; [auto|]. destruct (memory_map_ (engine w) !! ptr); simpl; auto.
  - unfold forward_pass. repeat destruct (decide _); simpl; auto.
  - unfold warmup_kernels. destruct cuda; simpl; auto.
  - unfold synchronize_gpus. destruct cuda; [destruct (decide _)|]; simpl; auto.
  - unfold all_reduce_gradients. destruct cuda; simpl; auto.
  - unfold broadcast_weights. destruct cuda; simpl; auto.
Qed.

Lemma reachable_static (cuda : bool) (w : World) :
  reachable cuda w ->
  config_ (engine w) = default_ModelConfig /\
  tensor_parallel_size_ (engine w) = 1 /\
  pipeline_parallel_size_ (engine w) = 1.
Proof.
  induction 1 as [n h Hn Hh|w c Hw IH Hc].
  - unfold construct. destruct cuda; simpl; auto.
  - destruct (exec_static cuda c w) as (-> & -> & ->). exact IH.
Qed.

(** The loop of [cleanup] on blocks that are live and distinct. *)
Lemma free_all_live (pairs : list (Z * Z)) :
  forall h : Host,
    NoDup pairs.*1 ->
    (forall p, p ∈ pairs.*1 -> p ≠ 0 /\ is_Some (heap h !! p)) ->
    heap_ub (free_all pairs h) = heap_ub h /\
    free_log (free_all pairs h) = rev pairs.*1 ++ free_log h /\
    cout (free_all pairs h) = cout h /\
    cerr (free_all pairs h) = cerr h /\
    (forall q, heap (free_all pairs h) !! q =
               if decide (q ∈ pairs.*1) then None else heap h !! q).
Proof.
  induction pairs as [|[p sz] l IH]; intros h Hnd Hlive.
  - simpl. repeat split; reflexivity.
  - simpl in Hnd. apply NoDup_cons in Hnd as [Hp Hnd].
    destruct (Hlive p) as [Hp0 [szp Hhp]]; [simpl; apply list_elem_of_here|].
    unfold free_all. simpl. fold (free_all l (free p h)).
    assert (free p h =
            mkHost (delete p (heap h)) (p :: free_log h) (heap_ub h) (cout h) (cerr h))
      as Hfree.
    { unfold free. destruct (decide (p = 0)); [contradiction|].
      rewrite Hhp. reflexivity. }
    destruct (IH (free p h) Hnd) as (Hub & Hlog & Hout & Herr & Hheap).
    { intros q Hq. destruct (Hlive q) as [Hq0 Hsome];
        [simpl; apply list_elem_of_further; exact Hq|].
      split; [exact Hq0|]. rewrite Hfree. simpl.
      rewrite lookup_delete_ne by (intros ->; contradiction). exact Hsome. }
    rewrite Hub, Hlog, Hout, Herr.
    split; [rewrite Hfree; reflexivity|].
    split; [rewrite Hfree; simpl; rewrite <- app_assoc; reflexivity|].
    split; [rewrite Hfree; reflexivity|].
    split; [rewrite Hfree; reflexivity|].
    intros q. rewrite Hheap, Hfree. simpl.
    destruct (decide (q ∈ l.*1)) as [Hq|Hq].
    + rewrite decide_True by (apply list_elem_of_further; exact Hq). reflexivity.
    + destruct (decide (q = p)) as [->|Hqp].
      * rewrite decide_True by apply list_elem_of_here. apply lookup_delete_eq.
      * rewrite decide_False by (rewrite elem_of_cons; tauto).
        apply lookup_delete_ne. auto.
Qed.

Lemma wrap_size_t_small (n : Z) : 0 <= n <= SIZE_MAX -> wrap_size_t n = n.
Proof. unfold wrap_size_t, SIZE_MAX. intros H. apply Z.mod_small. lia. Qed.

Lemma tracked_memory_map_ok (w : World) : tracked w -> heap_ok (memory_map_ (engine w)).
Proof. intros [[Hok _] Hsub]. eapply heap_ok_subseteq; eauto. Qed.

Lemma map_to_list_enumerates (m : gmap Z Z) : enumerates (map_to_list m) m.
Proof. split; [apply NoDup_fst_map_to_list|apply list_to_map_to_list]. Qed.

Lemma enumerates_keys (pairs : list (Z * Z)) (m : gmap Z Z) (p : Z) :
  enumerates pairs m -> p ∈ pairs.*1 <-> is_Some (m !! p).
Proof.
  intros [Hnd <-]. rewrite list_elem_of_fmap. split.
  - intros ([q sz] & -> & Hq). exists sz. apply elem_of_list_to_map; assumption.
  - intros [sz Hp]. exists (p, sz). split; [reflexivity|].
    apply elem_of_list_to_map; assumption.
Qed.

(** The keys of a tracked map are non-null and live. *)
Lemma tracked_keys (pairs : list (Z * Z)) (w : World) :
  tracked w -> enumerates pairs (memory_map_ (engine w)) ->
  forall p, p ∈ pairs.*1 -> p ≠ 0 /\ is_Some (heap (host w) !! p).
Proof.
  intros [[[Hin _] _] Hsub] Henum p Hp.
  apply (enumerates_keys _ _ p Henum) in Hp as [sz Hp].
  pose proof (lookup_weaken _ _ _ _ Hp Hsub) as Hlive.
  destruct (Hin p sz Hlive) as (Hpos & _). split; [lia|eauto].
Qed.

Lemma cleanup_tracked (pairs : list (Z * Z)) (w : World) :
  tracked w -> enumerates pairs (memory_map_ (engine w)) ->
  tracked (cleanup pairs w).
Proof.
  intros Hw Henum. pose proof (tracked_keys pairs w Hw Henum) as Hlive.
  destruct Henum as [Hnd _].
  destruct Hw as [[Hok Hub] Hsub]. unfold cleanup, tracked, host_ok. simpl.
  set (h0 := print_cout _ (host w)).
  destruct (free_all_live pairs h0 Hnd Hlive)
    as (Hub' & _ & _ & _ & Hheap).
  split; [split|].
  - apply (heap_ok_subseteq _ (heap (host w))); [|exact Hok].
    apply map_subseteq_spec. intros q sz. rewrite Hheap.
    destruct (decide _); [discriminate|]. auto.
  - rewrite Hub'. exact Hub.
  - apply map_empty_subseteq.
Qed.

Lemma exec_tracked (cuda : bool) (c : call) (w : World) :
  tracked w -> call_ok cuda w c -> tracked (exec cuda c w).
Proof.
  intros Hw Hc. pose proof Hw as [[Hok Hub] Hsub].
  destruct c; simpl; try exact Hw.
  - unfold initialize. destruct cuda; [repeat destruct (decide _)|]; exact Hw.
  - unfold setup_multi_gpu. destruct cuda; [destruct (decide _)|]; exact Hw.
  - destruct Hc as (Hsize & _ & Hadm). unfold allocate_gpu_memory.
    destruct cuda; [exact Hw|]. specialize (Hadm eq_refl).
    unfold malloc. destruct (decide (malloc_result ≠ 0)) as [Hr|Hr].
    + rewrite decide_False by exact Hr. unfold tracked, host_ok. simpl.
      split; [split|]; [|exact Hub|apply insert_mono; exact Hsub].
      apply heap_ok_insert; auto. apply Hsize.
    + rewrite decide_True by (destruct (decide (malloc_result = 0)); tauto).
      exact Hw.
  - unfold free_gpu_memory. destruct (decide _); [exact Hw|].
    destruct cuda; [exact Hw|].
    destruct (memory_map_ (engine w) !! ptr) as [sz|] eqn:E; [|exact Hw].
    pose proof (lookup_weaken _ _ _ _ E Hsub) as Hlive.
    unfold free. rewrite decide_False by assumption. rewrite Hlive.
    unfold tracked, host_ok. simpl.
    split; [split|]; [apply heap_ok_delete; exact Hok|exact Hub|].
    apply delete_mono. exact Hsub.
  - unfold forward_pass. repeat destruct (decide _); exact Hw.
  - unfold warmup_kernels. destruct cuda; exact Hw.
  - unfold synchronize_gpus. destruct cuda; [destruct (decide _)|]; exact Hw.
  - unfold all_reduce_gradients. destruct cuda; exact Hw.
  - unfold broadcast_weights. destruct cuda; exact Hw.
  - apply cleanup_tracked; assumption.
Qed.

Lemma reachable_tracked (cuda : bool) (w : World) : reachable cuda w -> tracked w.
Proof.
  induction 1 as [n h Hn Hh|w c Hw IH Hc].
  - unfold construct, tracked. destruct cuda; simpl; (split; [exact Hh|]);
      apply map_empty_subseteq.
  - apply exec_tracked; assumption.
Qed.

(** A successful allocation in the CPU build, in exact arithmetic. *)
Lemma allocate_balanced (w : World) (size dev r : Z) :
  tracked w -> balanced w -> call_ok false w (Call_allocate_gpu_memory size dev r) ->
  r ≠ 0 ->
  let w' := snd (allocate_gpu_memory false r size dev w) in
  memory_map_ (engine w) !! r = None /\
  memory_map_ (engine w') = <[r := size]> (memory_map_ (engine w)) /\
  total_memory_allocated_ (engine w') = total_memory_allocated_ (engine w) + size /\
  balanced w'.
Proof.
  intros Hw Hbal Hc Hr w'.
  pose proof (exec_tracked false _ w Hw Hc) as Hw'.
  apply tracked_memory_map_ok, sum_sizes_heap_ok in Hw'.
  destruct Hc as (Hsize & _ & Hadm). specialize (Hadm eq_refl).
  destruct Hw as [_ Hsub].
  assert (memory_map_ (engine w) !! r = None) as Hfresh.
  { eapply lookup_weaken_None; [|exact Hsub]. eapply malloc_admits_fresh; eauto. }
  revert Hw'. subst w'. unfold balanced in *. simpl. unfold allocate_gpu_memory.
  rewrite decide_True by exact Hr. simpl.
  rewrite (sum_sizes_insert _ _ _ Hfresh), Hbal. intros Hrange.
  unfold size_add. rewrite wrap_size_t_small by lia.
  repeat split; auto; lia.
Qed.

(** A successful release in the CPU build, in exact arithmetic. *)
Lemma free_balanced (w : World) (p sz : Z) :
  tracked w -> balanced w -> memory_map_ (engine w) !! p = Some sz ->
  let w' := free_gpu_memory false p w in
  memory_map_ (engine w') = delete p (memory_map_ (engine w)) /\
  total_memory_allocated_ (engine w') = total_memory_allocated_ (engine w) - sz /\
  balanced w'.
Proof.
  intros Hw Hbal Hp w'.
  pose proof (tracked_memory_map_ok w Hw) as Hok.
  pose proof (sum_sizes_heap_ok _ (heap_ok_delete _ p Hok)) as Hrange.
  destruct Hok as [Hin _]. destruct (Hin p sz Hp) as (Hpos & _).
  subst w'. unfold balanced in *. unfold free_gpu_memory.
  rewrite decide_False by lia. rewrite Hp. simpl.
  rewrite Hbal, (sum_sizes_delete _ _ _ Hp).
  unfold size_sub. rewrite wrap_size_t_small by lia.
  repeat split; auto; lia.
Qed.

Lemma exec_balanced (c : call) (w : World) :
  tracked w -> balanced w -> call_ok false w c -> balanced (exec false c w).
Proof.
  intros Hw Hbal Hc.
  destruct c as [ storage | path | | size dev r | ptr | | toks logits bs | toks out n t tp
                | ins outs | | | | | | | | | ]; simpl; try exact Hbal.
  - destruct (decide (r = 0)) as [->|Hr].
    + exact Hbal.
    + apply (allocate_balanced w size dev r); assumption.
  - destruct (memory_map_ (engine w) !! ptr) as [sz|] eqn:E.
    + apply (free_balanced w ptr sz); assumption.
    + unfold free_gpu_memory. destruct (decide _); [exact Hbal|].
      rewrite E. exact Hbal.
  - unfold forward_pass. repeat destruct (decide _); exact Hbal.
  - unfold balanced, cleanup. simpl. symmetry. apply sum_sizes_empty.
Qed.

Lemma reachable_balanced (w : World) : reachable false w -> balanced w.
Proof.
  induction 1 as [n h Hn Hh|w c Hw IH Hc].
  - unfold balanced. simpl. symmetry. apply sum_sizes_empty.
  - apply exec_balanced; auto. apply (reachable_tracked false). exact Hw.
Qed.

Lemma run_reachable (cuda : bool) (cs : list call) :
  forall w, reachable cuda w -> run_ok cuda cs w -> reachable cuda (run cuda cs w).
Proof.
  induction cs as [|c cs IH]; intros w Hw Hok; [exact Hw|].
  destruct Hok as [Hc Hok]. simpl. apply IH; [|exact Hok].
  apply reachable_call; assumption.
Qed.

Lemma fresh_host_ok : host_ok fresh_host.
Proof. split; [apply heap_ok_empty|reflexivity]. Qed.

(** In the CUDA build nothing is ever recorded. *)
Lemma reachable_cuda_memory_map (w : World) :
  reachable true w -> memory_map_ (engine w) = ∅.
Proof.
  induction 1 as [n h Hn Hh|w c Hw IH Hc]; [reflexivity|].
  destruct c; simpl; try exact IH; try reflexivity.
  - unfold initialize. repeat destruct (decide _); exact IH.
  - unfold setup_multi_gpu. destruct (decide _); exact IH.
  - unfold free_gpu_memory. destruct (decide _); exact IH.
  - unfold forward_pass. repeat destruct (decide _); exact IH.
  - unfold synchronize_gpus. destruct (decide _); exact IH.
Qed.

Lemma free_gpu_memory_unknown (cuda : bool) (ptr : Z) (w : World) :
  memory_map_ (engine w) !! ptr = None -> free_gpu_memory cuda ptr w = w.
Proof.
  intros Hptr. unfold free_gpu_memory.
  destruct (decide _); [reflexivity|]. destruct cuda; [reflexivity|].
  rewrite Hptr. reflexivity.
Qed.

Lemma free_gpu_memory_erases (cuda : bool) (ptr : Z) (w : World) :
  reachable cuda w -> memory_map_ (engine (free_gpu_memory cuda ptr w)) !! ptr = None.
Proof.
  intros Hw. pose proof (reachable_tracked cuda w Hw) as Htr.
  destruct (tracked_memory_map_ok w Htr) as [Hin _].
  unfold free_gpu_memory. destruct (decide (ptr = 0)) as [->|Hptr].
  - destruct (memory_map_ (engine w) !! 0) as [sz|] eqn:E; [|reflexivity].
    destruct (Hin 0 sz E). lia.
  - destruct cuda.
    + rewrite (reachable_cuda_memory_map w Hw). apply lookup_empty.
    + destruct (memory_map_ (engine w) !! ptr) as [sz|] eqn:E; [|exact E].
      simpl. apply lookup_delete_eq.
Qed.

(** ** [resize] *)

Lemma length_resize {A : Type} (n : nat) (x : A) (v : list A) :
  length (resize n x v) = n.
Proof.
  unfold resize. rewrite length_app, length_take, length_replicate. lia.
Qed.

Lemma resize_lookup_kept {A : Type} (n i : nat) (x : A) (v : list A) :
  (i < n)%nat -> (i < length v)%nat -> resize n x v !! i = v !! i.
Proof.
  intros Hn Hv. unfold resize.
  rewrite lookup_app_l by (rewrite length_take; lia).
  apply lookup_take_lt. exact Hn.
Qed.

Lemma resize_lookup_filled {A : Type} (n i : nat) (x : A) (v : list A) :
  (i < n)%nat -> (length v <= i)%nat -> resize n x v !! i = Some x.
Proof.
  intros Hn Hv. unfold resize.
  rewrite lookup_app_r by (rewrite length_take; lia).
  apply lookup_replicate_2. rewrite length_take. lia.
Qed.

Lemma resize_nil {A : Type} (n : nat) (x : A) : resize n x [] = replicate n x.
Proof. unfold resize. rewrite take_nil. simpl. f_equal. lia. Qed.

Lemma forward_pass_returns (toks : list Z) (logits : list float32) (bs : Z) (w : World) :
  0 <= vocab_size (config_ (engine w)) * bs <= INT_MAX ->
  fst (forward_pass toks logits bs w) =
  Returns (true,
           resize (Z.to_nat (vocab_size (config_ (engine w)) * bs)) f32_zero logits).
Proof.
  intros Hn. unfold forward_pass.
  assert (size_of_int (vocab_size (config_ (engine w)) * bs) =
          vocab_size (config_ (engine w)) * bs) as Hconv.
  { unfold size_of_int. apply wrap_size_t_small.
    unfold INT_MAX, SIZE_MAX in *. lia. }
  rewrite decide_True by (unfold INT_MIN, INT_MAX in *; lia).
  rewrite Hconv.
  rewrite decide_False; [reflexivity|].
  unfold vector_max_size, sizeof_float, INT_MAX in *.
  assert (2 ^ 31 <= (2 ^ 63 - 1) / 4) by (apply Z.div_le_lower_bound; lia).
  lia.
Qed.

(** * The claims *)

(** Reachability of a sample world, by evaluation of the side conditions of
    its calls. *)
Ltac reach_by_evaluation :=
  apply run_reachable;
  [ apply reachable_construct;
    [ unfold is_int, INT_MIN, INT_MAX; lia | apply fresh_host_ok ]
  | apply (bool_decide_unpack _); vm_compute; exact I ].

(** C1.  After [cleanup], whatever calls came before and in whatever order
    the loop meets the pairs of [memory_map_], the map is empty and the
    counter that [get_memory_usage] reports is zero.  The loop hands to
    [free] exactly the recorded addresses, each of them once and each of them
    a live block (so no block is freed twice); afterwards none of them is
    live and every other block of the heap is untouched. *)
Theorem cleanup_releases_every_allocation_once
    (cuda : bool) (w : World) (pairs : list (Z * Z)) :
  reachable cuda w -> enumerates pairs (memory_map_ (engine w)) ->
  let w' := cleanup pairs w in
  memory_map_ (engine w') = ∅ /\
  total_memory_allocated_ (engine w') = 0 /\
  get_memory_usage w' = 0 /\
  heap_ub (host w') = false /\
  free_log (host w') = rev pairs.*1 ++ free_log (host w) /\
  NoDup pairs.*1 /\
  (forall p, p ∈ pairs.*1 <-> is_Some (memory_map_ (engine w) !! p)) /\
  (forall p, is_Some (memory_map_ (engine w) !! p) ->
             is_Some (heap (host w) !! p) /\ heap (host w') !! p = None) /\
  (forall p, memory_map_ (engine w) !! p = None ->
             heap (host w') !! p = heap (host w) !! p).
Proof.
  intros Hreach Henum w'.
  pose proof (reachable_tracked cuda w Hreach) as Htr.
  pose proof (tracked_keys pairs w Htr Henum) as Hlive.
  pose proof (fun p => enumerates_keys pairs _ p Henum) as Hkeys.
  destruct Henum as [Hnd _]. destruct Htr as [[_ Hub] _].
  subst w'. unfold cleanup, get_memory_usage. simpl.
  set (h0 := print_cout _ (host w)).
  destruct (free_all_live pairs h0 Hnd Hlive) as (Hub' & Hlog & _ & _ & Hheap).
  split; [reflexivity|]. split; [reflexivity|]. split; [reflexivity|].
  split; [rewrite Hub'; exact Hub|]. split; [exact Hlog|].
  split; [exact Hnd|]. split; [exact Hkeys|].
  split.
  - intros p Hp. split; [apply Hlive, Hkeys, Hp|].
    rewrite Hheap. apply decide_True, Hkeys, Hp.
  - intros p Hp. rewrite Hheap. apply decide_False.
    rewrite Hkeys, Hp. intros [? ?]. discriminate.
Qed.

(** The order in which the sample world's two outstanding blocks are freed
    here is one of the two possible. *)
Lemma cleanup_releases_every_allocation_once_witness :
  let pairs := [(12288, 64); (8192, 32)] in
  let w' := cleanup pairs sample_world in
  memory_map_ (engine w') = ∅ /\
  total_memory_allocated_ (engine w') = 0 /\
  get_memory_usage w' = 0 /\
  heap_ub (host w') = false /\
  free_log (host w') = rev pairs.*1 ++ free_log (host sample_world) /\
  NoDup pairs.*1 /\
  (forall p, p ∈ pairs.*1 <-> is_Some (memory_map_ (engine sample_world) !! p)) /\
  (forall p, is_Some (memory_map_ (engine sample_world) !! p) ->
             is_Some (heap (host sample_world) !! p) /\ heap (host w') !! p = None) /\
  (forall p, memory_map_ (engine sample_world) !! p = None ->
             heap (host w') !! p = heap (host sample_world) !! p).
Proof.
  apply (cleanup_releases_every_allocation_once false sample_world
           [(12288, 64); (8192, 32)]).
  - unfold sample_world. reach_by_evaluation.
  - apply (bool_decide_unpack _). vm_compute. exact I.
Defined.

(** C2, as stated, fails.  A block is allocated at 4096 and released; the
    second [free_gpu_memory(4096)] finds no entry.  The specification's
    contract refuses it with [InvalidHandle]; the method returns normally,
    with the world it was given and nothing written to [cerr]. *)
Lemma second_free_is_not_refused :
  let w0 := construct false 8 fresh_host in
  let w1 := snd (allocate_gpu_memory false 4096 16 0 w0) in
  let w2 := free_gpu_memory false 4096 w1 in
  memory_map_ (engine w1) !! 4096 = Some 16 /\
  memory_map_ (engine w2) !! 4096 = None /\
  spec_free 4096 w2 = Failed InvalidHandle /\
  free_gpu_memory_result false 4096 w2 = Ok w2 /\
  free_gpu_memory_result false 4096 w2 ≠ spec_free 4096 w2 /\
  cerr (host (free_gpu_memory false 4096 w2)) = [].
Proof.
  cbv zeta. unfold free_gpu_memory_result, spec_free.
  split; [vm_compute; reflexivity|].
  split; [vm_compute; reflexivity|].
  split; [vm_compute; reflexivity|].
  split; [vm_compute; reflexivity|].
  split; [|vm_compute; reflexivity].
  vm_compute. discriminate.
Qed.

(** C2, amended.  [free_gpu_memory] on a pointer that is not outstanding
    (null, unknown, or already released) returns normally and changes
    nothing: no error is raised and no block is released.  After any call
    the pointer has no entry, so a second call on the same pointer is such a
    no-op. *)
Theorem free_of_non_outstanding_pointer_is_a_no_op (cuda : bool) (w : World) (ptr : Z) :
  reachable cuda w ->
  (memory_map_ (engine w) !! ptr = None -> free_gpu_memory cuda ptr w = w) /\
  memory_map_ (engine (free_gpu_memory cuda ptr w)) !! ptr = None /\
  free_gpu_memory cuda ptr (free_gpu_memory cuda ptr w) = free_gpu_memory cuda ptr w /\
  free_gpu_memory_result cuda ptr (free_gpu_memory cuda ptr w) =
    Ok (free_gpu_memory cuda ptr w).
Proof.
  intros Hreach.
  pose proof (free_gpu_memory_erases cuda ptr w Hreach) as Hgone.
  pose proof (free_gpu_memory_unknown cuda ptr _ Hgone) as Hnoop.
  split; [apply free_gpu_memory_unknown|].
  split; [exact Hgone|].
  split; [exact Hnoop|].
  unfold free_gpu_memory_result. rewrite Hnoop. reflexivity.
Qed.

Lemma free_of_non_outstanding_pointer_is_a_no_op_witness :
  (memory_map_ (engine sample_world) !! 4096 = None ->
   free_gpu_memory false 4096 sample_world = sample_world) /\
  memory_map_ (engine (free_gpu_memory false 4096 sample_world)) !! 4096 = None /\
  free_gpu_memory false 4096 (free_gpu_memory false 4096 sample_world) =
    free_gpu_memory false 4096 sample_world /\
  free_gpu_memory_result false 4096 (free_gpu_memory false 4096 sample_world) =
    Ok (free_gpu_memory false 4096 sample_world).
Proof.
  apply (free_of_non_outstanding_pointer_is_a_no_op false sample_world 4096).
  unfold sample_world. reach_by_evaluation.
Defined.

(** C3, as stated, fails.  On a fresh CPU-build engine a request of [2^40]
    bytes that [malloc] serves at 4096 is recorded, though it exceeds a
    ceiling of [2^30] bytes; and no ceiling at all below [SIZE_MAX] is
    enforced. *)
Lemma allocation_above_a_ceiling_is_recorded :
  let w0 := construct false 8 fresh_host in
  let res := allocate_gpu_memory false 4096 (2 ^ 40) 0 w0 in
  (2 ^ 30 < total_memory_allocated_ (engine w0) + 2 ^ 40 /\
   fst res = 4096 /\
   memory_map_ (engine (snd res)) !! 4096 = Some (2 ^ 40) /\
   total_memory_allocated_ (engine (snd res)) = 2 ^ 40) /\
  ~ some_ceiling_enforced false.
Proof.
  cbv zeta. split.
  - split; [vm_compute; reflexivity|].
    split; [vm_compute; reflexivity|].
    split; vm_compute; reflexivity.
  - intros (ceiling & Hc & Henf).
    destruct (Henf (construct false 0 fresh_host) (ceiling + 1) 0 1) as [Hnull _].
    + apply reachable_construct; [unfold is_int, INT_MIN, INT_MAX; lia|].
      apply fresh_host_ok.
    + unfold call_ok, is_size_t, is_int, INT_MIN, INT_MAX, SIZE_MAX in *.
      split; [lia|]. split; [lia|]. intros _. right.
      split; [lia|]. split; [unfold block_end; lia|]. apply map_Forall_empty.
    + simpl. lia.
    + unfold allocate_gpu_memory in Hnull. simpl in Hnull. discriminate.
Qed.

(** C3, amended.  In the CPU build [allocate_gpu_memory] applies no ceiling
    and does not look at [device_id]: it returns what [malloc] returns.  It
    yields the null pointer exactly when [malloc] does, and then the world is
    as before (nothing recorded, counter unchanged); a block that [malloc]
    grants is recorded with the requested size, and the counter grows by
    that size modulo [2^64]. *)
Theorem allocate_fails_exactly_when_malloc_fails (w : World) (size dev r : Z) :
  let res := allocate_gpu_memory false r size dev w in
  fst res = r /\
  (fst res = 0 <-> r = 0) /\
  (r = 0 -> snd res = w) /\
  (r ≠ 0 ->
   memory_map_ (engine (snd res)) = <[r := size]> (memory_map_ (engine w)) /\
   memory_map_ (engine (snd res)) !! r = Some size /\
   total_memory_allocated_ (engine (snd res)) =
     size_add (total_memory_allocated_ (engine w)) size) /\
  (forall dev', fst (allocate_gpu_memory false r size dev' w) = fst res /\
                engine (snd (allocate_gpu_memory false r size dev' w)) =
                  engine (snd res)).
Proof.
  cbv zeta. unfold allocate_gpu_memory, malloc.
  destruct (decide (r = 0)) as [->|Hr].
  - rewrite decide_False by tauto. simpl.
    split; [reflexivity|]. split; [tauto|].
    split; [intros _; destruct w; reflexivity|].
    split; [tauto|]. intros dev'. split; reflexivity.
  - rewrite decide_True by exact Hr. simpl.
    split; [reflexivity|]. split; [tauto|].
    split; [tauto|].
    split; [|intros dev'; split; reflexivity].
    intros _. split; [reflexivity|]. split; [apply lookup_insert_eq|reflexivity].
Qed.

(** C4.  The end-to-end scenario on the code: prompt [1,2,3],
    [max_new_tokens = 5], temperature 0, [top_p = 1.0].  [generate_tokens]
    reports success, [output_tokens] is the prompt itself, so not one token
    was generated where five are expected; the engine (and with it the
    allocator's counter) and the heap are as before the call. *)
Theorem generate_tokens_scenario_yields_no_token (w : World) :
  let res := generate_tokens [1; 2; 3] [] 5 f32_zero f32_one w in
  fst res = (true, [1; 2; 3]) /\
  length (generated_tokens [1; 2; 3] (snd (fst res))) = 0%nat /\
  engine (snd res) = engine w /\
  get_memory_usage (snd res) = get_memory_usage w /\
  heap (host (snd res)) = heap (host w).
Proof.
  cbv zeta. unfold generate_tokens, generated_tokens, get_memory_usage. simpl.
  repeat split.
Qed.


(** C6.  Sampling at temperature 0 on the code: [generate_tokens] does not
    read [temperature] or [top_p], and with a budget of one token on the
    prompt [1,2,3] it returns the prompt; no arg-max token (no token at all)
    follows it. *)
Theorem generate_tokens_at_temperature_zero_samples_nothing (w : World) :
  (forall (input_tokens output_tokens : list Z) (n : Z) (t t' p p' : float32),
     fst (generate_tokens input_tokens output_tokens n t p w) =
     fst (generate_tokens input_tokens output_tokens n t' p' w)) /\
  fst (generate_tokens [1; 2; 3] [] 1 f32_zero f32_one w) = (true, [1; 2; 3]) /\
  generated_tokens [1; 2; 3]
    (snd (fst (generate_tokens [1; 2; 3] [] 1 f32_zero f32_one w))) = [].
Proof.
  split; [intros; reflexivity|]. split; reflexivity.
Qed.

(** C7.  Two runs of [forward_pass] on the same engine, the same input
    tokens and the same batch size, one with an empty [output_logits] and
    one with an [output_logits] that holds [1.0f]: both return [true] with
    152064 logits, and the logits differ at index 0, because [resize] keeps
    the elements the vector already has. *)
Theorem forward_pass_keeps_stale_logits (cuda : bool) (num_gpus : Z) (h : Host) :
  let w := construct cuda num_gpus h in
  exists logits1 logits2 : list float32,
    fst (forward_pass [1; 2; 3] [] 1 w) = Returns (true, logits1) /\
    fst (forward_pass [1; 2; 3] [f32_one] 1 w) = Returns (true, logits2) /\
    Z.of_nat (length logits1) = 152064 /\
    Z.of_nat (length logits2) = 152064 /\
    logits1 !! 0%nat = Some f32_zero /\
    logits2 !! 0%nat = Some f32_one /\
    logits1 ≠ logits2.
Proof.
  cbv zeta.
  assert (vocab_size (config_ (engine (construct cuda num_gpus h))) = 152064) as Hv
    by (unfold construct; destruct cuda; reflexivity).
  eexists _, _.
  split; [apply forward_pass_returns; rewrite Hv; unfold INT_MAX; lia|].
  split; [apply forward_pass_returns; rewrite Hv; unfold INT_MAX; lia|].
  rewrite Hv. set (n := Z.to_nat (152064 * 1)).
  assert (0 < n)%nat as Hn by (subst n; lia).
  assert (resize n f32_zero [] !! 0%nat = Some f32_zero) as H1
    by (apply resize_lookup_filled; simpl; lia).
  assert (resize n f32_zero [f32_one] !! 0%nat = Some f32_one) as H2
    by (rewrite resize_lookup_kept by (simpl; lia); reflexivity).
  split; [rewrite length_resize; subst n; lia|].
  split; [rewrite length_resize; subst n; lia|].
  split; [exact H1|]. split; [exact H2|].
  intros Heq. rewrite Heq, H2 in H1. discriminate.
Qed.

(** C8.  In every reachable world the engine's configuration is the default
    one and the tensor-parallel size is 1: [hidden_size] 8192 is a multiple
    of [num_attention_heads] 64 (so [head_dim] is the integer 128), and 64 is
    a multiple of [num_key_value_heads] 8 and of the tensor-parallel
    size 1. *)
Theorem engine_config_satisfies_invariant (cuda : bool) (w : World) :
  reachable cuda w ->
  config_invariant (get_config w) (tensor_parallel_size_ (engine w)) /\
  hidden_size (get_config w) = 8192 /\
  num_attention_heads (get_config w) = 64 /\
  num_key_value_heads (get_config w) = 8 /\
  tensor_parallel_size_ (engine w) = 1 /\
  head_dim (get_config w) = 128 /\
  head_dim (get_config w) * num_attention_heads (get_config w) =
    hidden_size (get_config w).
Proof.
  intros Hreach. destruct (reachable_static cuda w Hreach) as (Hc & Ht & _).
  unfold get_config. rewrite Hc, Ht.
  unfold config_invariant, head_dim. simpl.
  repeat split; reflexivity.
Qed.

Lemma engine_config_satisfies_invariant_witness :
  config_invariant (get_config sample_world)
    (tensor_parallel_size_ (engine sample_world)) /\
  hidden_size (get_config sample_world) = 8192 /\
  num_attention_heads (get_config sample_world) = 64 /\
  num_key_value_heads (get_config sample_world) = 8 /\
  tensor_parallel_size_ (engine sample_world) = 1 /\
  head_dim (get_config sample_world) = 128 /\
  head_dim (get_config sample_world) * num_attention_heads (get_config sample_world) =
    hidden_size (get_config sample_world).
Proof.
  apply (engine_config_satisfies_invariant false sample_world).
  unfold sample_world. reach_by_evaluation.
Defined.

(** C10.  In the CPU build, in every reachable world (so after every call),
    [total_memory_allocated_] equals the sum of the sizes recorded in
    [memory_map_].  From such a world: an allocation for which [malloc]
    returns null leaves the engine as it is; a granted allocation adds its
    entry and exactly its size; freeing null or an unknown pointer changes
    nothing; freeing a recorded pointer removes its entry and subtracts
    exactly its recorded size; [cleanup] leaves an empty map and a counter of
    zero.  Each of these worlds satisfies the equation again. *)
Theorem counter_equals_sum_of_recorded_sizes (w : World) :
  reachable false w ->
  balanced w /\
  (forall size dev,
     fst (allocate_gpu_memory false 0 size dev w) = 0 /\
     engine (snd (allocate_gpu_memory false 0 size dev w)) = engine w) /\
  (forall size dev r,
     r ≠ 0 -> call_ok false w (Call_allocate_gpu_memory size dev r) ->
     let w' := snd (allocate_gpu_memory false r size dev w) in
     memory_map_ (engine w) !! r = None /\
     memory_map_ (engine w') = <[r := size]> (memory_map_ (engine w)) /\
     total_memory_allocated_ (engine w') = total_memory_allocated_ (engine w) + size /\
     balanced w') /\
  (forall p, p = 0 \/ memory_map_ (engine w) !! p = None ->
             free_gpu_memory false p w = w) /\
  (forall p sz,
     memory_map_ (engine w) !! p = Some sz ->
     let w' := free_gpu_memory false p w in
     memory_map_ (engine w') = delete p (memory_map_ (engine w)) /\
     total_memory_allocated_ (engine w') = total_memory_allocated_ (engine w) - sz /\
     balanced w') /\
  (forall pairs,
     memory_map_ (engine (cleanup pairs w)) = ∅ /\
     total_memory_allocated_ (engine (cleanup pairs w)) = 0 /\
     balanced (cleanup pairs w)).
Proof.
  intros Hreach.
  pose proof (reachable_tracked false w Hreach) as Htr.
  pose proof (reachable_balanced w Hreach) as Hbal.
  split; [exact Hbal|].
  split; [intros size dev; split; reflexivity|].
  split; [intros size dev r Hr Hc; apply allocate_balanced; assumption|].
  split.
  { intros p [->|Hp]; [reflexivity|]. apply free_gpu_memory_unknown. exact Hp. }
  split; [intros p sz Hp; apply free_balanced; assumption|].
  intros pairs. split; [reflexivity|]. split; [reflexivity|].
  unfold balanced, cleanup. simpl. symmetry. apply sum_sizes_empty.
Qed.

Lemma counter_equals_sum_of_recorded_sizes_witness :
  balanced sample_world /\
  (forall size dev,
     fst (allocate_gpu_memory false 0 size dev sample_world) = 0 /\
     engine (snd (allocate_gpu_memory false 0 size dev sample_world)) =
       engine sample_world) /\
  (forall size dev r,
     r ≠ 0 -> call_ok false sample_world (Call_allocate_gpu_memory size dev r) ->
     let w' := snd (allocate_gpu_memory false r size dev sample_world) in
     memory_map_ (engine sample_world) !! r = None /\
     memory_map_ (engine w') = <[r := size]> (memory_map_ (engine sample_world)) /\
     total_memory_allocated_ (engine w') =
       total_memory_allocated_ (engine sample_world) + size /\
     balanced w') /\
  (forall p, p = 0 \/ memory_map_ (engine sample_world) !! p = None ->
             free_gpu_memory false p sample_world = sample_world) /\
  (forall p sz,
     memory_map_ (engine sample_world) !! p = Some sz ->
     let w' := free_gpu_memory false p sample_world in
     memory_map_ (engine w') = delete p (memory_map_ (engine sample_world)) /\
     total_memory_allocated_ (engine w') =
       total_memory_allocated_ (engine sample_world) - sz /\
     balanced w') /\
  (forall pairs,
     memory_map_ (engine (cleanup pairs sample_world)) = ∅ /\
     total_memory_allocated_ (engine (cleanup pairs sample_world)) = 0 /\
     balanced (cleanup pairs sample_world)).
Proof.
  apply (counter_equals_sum_of_recorded_sizes sample_world).
  unfold sample_world. reach_by_evaluation.
Defined.

(** The sample world itself: blocks of 32 and 64 bytes are outstanding and
    the counter reads 96. *)
Example sample_world_bookkeeping :
  memory_map_ (engine sample_world) = {[ 8192 := 32; 12288 := 64 ]} /\
  get_memory_usage sample_world = 96 /\
  heap (host sample_world) = {[ 8192 := 32; 12288 := 64 ]} /\
  free_log (host sample_world) = [4096] /\
  heap_ub (host sample_world) = false.
Proof. repeat split; vm_compute; reflexivity. Qed.

(** * Further facts about the methods *)

(** From an empty [output_logits], [forward_pass] yields [vocab_size *
    batch_size] logits, all [0.0f], whatever the input tokens and the host. *)
Lemma forward_pass_from_empty_logits (toks : list Z) (bs : Z) (w : World) :
  0 <= vocab_size (config_ (engine w)) * bs <= INT_MAX ->
  fst (forward_pass toks [] bs w) =
  Returns (true,
           replicate (Z.to_nat (vocab_size (config_ (engine w)) * bs)) f32_zero).
Proof.
  intros Hn. rewrite forward_pass_returns by exact Hn. rewrite resize_nil. reflexivity.
Qed.

(** The outcome of [forward_pass] depends on the configuration, the batch
    size and the previous content of [output_logits] only. *)
Lemma forward_pass_outcome_frame (toks toks' : list Z) (logits : list float32)
    (bs : Z) (w w' : World) :
  config_ (engine w) = config_ (engine w') ->
  fst (forward_pass toks logits bs w) = fst (forward_pass toks' logits bs w').
Proof.
  intros Hc. unfold forward_pass. rewrite Hc.
  repeat destruct (decide _); reflexivity.
Qed.

(** A negative batch size makes [resize] throw; with the default vocabulary
    14122 is the largest batch size whose product fits [int]. *)
Example forward_pass_negative_batch :
  fst (forward_pass [1; 2; 3] [] (-1) (construct false 8 fresh_host)) =
  Throws length_error.
Proof. vm_compute. reflexivity. Qed.

Example forward_pass_overflowing_batch :
  fst (forward_pass [1; 2; 3] [] 14123 (construct false 8 fresh_host)) = Undefined.
Proof. vm_compute. reflexivity. Qed.

(** In the CUDA build [allocate_gpu_memory] returns null, records nothing and
    still adds the size to the counter. *)
Lemma allocate_gpu_memory_cuda (r size dev : Z) (w : World) :
  fst (allocate_gpu_memory true r size dev w) = 0 /\
  memory_map_ (engine (snd (allocate_gpu_memory true r size dev w))) =
    memory_map_ (engine w) /\
  total_memory_allocated_ (engine (snd (allocate_gpu_memory true r size dev w))) =
    size_add (total_memory_allocated_ (engine w)) size /\
  host (snd (allocate_gpu_memory true r size dev w)) = host w.
Proof. repeat split. Qed.

Example allocate_gpu_memory_cuda_unbalanced :
  let w := snd (allocate_gpu_memory true 0 16 0 (construct true 8 fresh_host)) in
  get_memory_usage w = 16 /\ memory_map_ (engine w) = ∅.
Proof. split; vm_compute; reflexivity. Qed.

(** The test inference of [main]: five tokens in, the same five tokens
    out. *)
Example main_test_inference :
  fst (generate_tokens [1; 2; 3; 4; 5] [] 10 f32_0_7 f32_0_9
         (construct false 8 fresh_host)) = (true, [1; 2; 3; 4; 5]).
Proof. reflexivity. Qed.

(** [process_batch] hands the input batches back. *)
Lemma process_batch_copies (ins outs : list (list Z)) (w : World) :
  process_batch ins outs w = ((true, ins), w).
Proof. reflexivity. Qed.

(** The collective hooks return [true] and change nothing. *)
Lemma collective_hooks_return_true (cuda : bool) (w : World) :
  synchronize_gpus cuda w = (true, w) /\
  all_reduce_gradients cuda w = (true, w) /\
  broadcast_weights cuda w = (true, w).
Proof.
  unfold synchronize_gpus, all_reduce_gradients, broadcast_weights.
  destruct cuda; [destruct (decide _)|]; repeat split.
Qed.

(** X11.  Whatever order [cleanup] meets the pairs of [memory_map_] in, it
    leaves the same engine, the same heap and the same blocks in the log of
    [free] calls. *)
Lemma cleanup_order_irrelevant (cuda : bool) (w : World) (pairs pairs' : list (Z * Z)) :
  reachable cuda w ->
  enumerates pairs (memory_map_ (engine w)) ->
  enumerates pairs' (memory_map_ (engine w)) ->
  engine (cleanup pairs w) = engine (cleanup pairs' w) /\
  heap (host (cleanup pairs w)) = heap (host (cleanup pairs' w)) /\
  heap_ub (host (cleanup pairs w)) = heap_ub (host (cleanup pairs' w)) /\
  free_log (host (cleanup pairs w)) ≡ₚ free_log (host (cleanup pairs' w)).
Proof.
  intros Hreach He He'.
  pose proof (reachable_tracked cuda w Hreach) as Htr.
  pose proof (tracked_keys pairs w Htr He) as Hlive.
  pose proof (tracked_keys pairs' w Htr He') as Hlive'.
  pose proof (fun p => enumerates_keys pairs _ p He) as Hk.
  pose proof (fun p => enumerates_keys pairs' _ p He') as Hk'.
  destruct He as [Hnd _], He' as [Hnd' _].
  unfold cleanup. simpl. set (h0 := print_cout _ (host w)).
  destruct (free_all_live pairs h0 Hnd Hlive) as (Hub & Hlog & _ & _ & Hheap).
  destruct (free_all_live pairs' h0 Hnd' Hlive') as (Hub' & Hlog' & _ & _ & Hheap').
  split; [reflexivity|]. split; [|split; [congruence|]].
  - apply map_eq. intros q. rewrite Hheap, Hheap'.
    destruct (decide (q ∈ pairs.*1)) as [Hq|Hq].
    + rewrite decide_True by (apply Hk', Hk, Hq). reflexivity.
    + rewrite decide_False by (rewrite Hk', <- Hk; exact Hq). reflexivity.
  - rewrite Hlog, Hlog'. apply Permutation_app_tail.
    rewrite <- !Permutation_rev.
    apply NoDup_Permutation; [assumption|assumption|].
    intros q. rewrite Hk, Hk'. reflexivity.
Qed.

(** * Further properties of the engine *)

(** Hypotheses about a sample world, by evaluation. *)
Ltac by_evaluation := apply (bool_decide_unpack _); vm_compute; exact I.

(** X1.  In every reachable world of either build no invalid [free] has
    happened, and every pointer recorded in [memory_map_] is non-null and is
    the base of a live heap block of exactly the recorded size, which fits
    [size_t]. *)
Theorem recorded_pointers_are_live_blocks (cuda : bool) (w : World) :
  reachable cuda w ->
  heap_ub (host w) = false /\
  forall p sz,
    memory_map_ (engine w) !! p = Some sz ->
    p ≠ 0 /\ is_size_t p /\ is_size_t sz /\ heap (host w) !! p = Some sz.
Proof.
  intros Hreach. destruct (reachable_tracked cuda w Hreach) as [[[Hin _] Hub] Hsub].
  split; [exact Hub|]. intros p sz Hp.
  pose proof (lookup_weaken _ _ _ _ Hp Hsub) as Hlive.
  destruct (Hin p sz Hlive) as (Hpos & Hsz & Hend).
  unfold block_end in Hend. unfold is_size_t, SIZE_MAX.
  repeat split; try lia. exact Hlive.
Qed.

Lemma recorded_pointers_are_live_blocks_witness :
  heap_ub (host sample_world) = false /\
  forall p sz,
    memory_map_ (engine sample_world) !! p = Some sz ->
    p ≠ 0 /\ is_size_t p /\ is_size_t sz /\ heap (host sample_world) !! p = Some sz.
Proof.
  apply (recorded_pointers_are_live_blocks false sample_world).
  unfold sample_world. reach_by_evaluation.
Defined.

(** X2.  Round trip in the CPU build: from a reachable world, an allocation
    that [malloc] grants at [r], followed by [free_gpu_memory(r)], gives back
    the engine (map and counter) and the heap as they were; the block is
    handed to [free] once and no invalid [free] happens. *)
Theorem allocate_then_free_restores (w : World) (size dev r : Z) :
  reachable false w ->
  call_ok false w (Call_allocate_gpu_memory size dev r) ->
  r ≠ 0 ->
  let w1 := snd (allocate_gpu_memory false r size dev w) in
  let w2 := free_gpu_memory false r w1 in
  fst (allocate_gpu_memory false r size dev w) = r /\
  engine w2 = engine w /\
  heap (host w2) = heap (host w) /\
  free_log (host w2) = r :: free_log (host w) /\
  heap_ub (host w2) = false.
Proof.
  intros Hreach Hc Hr w1 w2.
  pose proof (reachable_tracked false w Hreach) as Htr.
  pose proof (reachable_balanced w Hreach) as Hbal.
  destruct (allocate_balanced w size dev r Htr Hbal Hc Hr) as (Hfresh & _ & _ & _).
  pose proof (sum_sizes_heap_ok _ (tracked_memory_map_ok w Htr)) as Hrange.
  pose proof (exec_tracked false _ w Htr Hc) as Htr1.
  apply tracked_memory_map_ok, sum_sizes_heap_ok in Htr1. simpl in Htr1.
  destruct Hc as (Hsize & _ & Hadm). specialize (Hadm eq_refl).
  pose proof (malloc_admits_fresh _ _ _ Hr Hadm) as Hhfresh.
  destruct Htr as [[_ Hub] _]. unfold balanced in Hbal.
  revert Htr1. subst w2 w1. unfold allocate_gpu_memory, malloc.
  rewrite decide_True by exact Hr. rewrite decide_False by exact Hr. simpl.
  rewrite (sum_sizes_insert _ _ _ Hfresh). intros Htr1.
  unfold free_gpu_memory. rewrite decide_False by exact Hr. simpl.
  rewrite lookup_insert_eq. unfold free. simpl.
  rewrite decide_False by exact Hr. rewrite lookup_insert_eq. simpl.
  rewrite !delete_insert_id by assumption.
  split; [reflexivity|]. split; [|repeat split; assumption].
  unfold set_memory. simpl. unfold size_add, size_sub.
  rewrite (wrap_size_t_small (_ + size)) by lia.
  replace (total_memory_allocated_ (engine w) + size - size)
    with (total_memory_allocated_ (engine w)) by lia.
  rewrite wrap_size_t_small by lia.
  destruct (engine w); reflexivity.
Qed.

Lemma allocate_then_free_restores_witness :
  let w1 := snd (allocate_gpu_memory false 65536 100 0 sample_world) in
  let w2 := free_gpu_memory false 65536 w1 in
  fst (allocate_gpu_memory false 65536 100 0 sample_world) = 65536 /\
  engine w2 = engine sample_world /\
  heap (host w2) = heap (host sample_world) /\
  free_log (host w2) = 65536 :: free_log (host sample_world) /\
  heap_ub (host w2) = false.
Proof.
  apply (allocate_then_free_restores sample_world 100 0 65536).
  - unfold sample_world. reach_by_evaluation.
  - by_evaluation.
  - lia.
Defined.

(** X3.  When [vocab_size * batch_size] is a non-negative [int],
    [forward_pass] returns [true] and leaves exactly that many logits: the
    ones the vector already held, up to that length, are kept as they were
    and every further one is [0.0f], whatever the input tokens.  The engine
    is unchanged and the host gains one line on [cout]. *)
Theorem forward_pass_logits (toks : list Z) (logits : list float32) (bs : Z) (w : World) :
  0 <= vocab_size (config_ (engine w)) * bs <= INT_MAX ->
  exists out : list float32,
    fst (forward_pass toks logits bs w) = Returns (true, out) /\
    Z.of_nat (length out) = vocab_size (config_ (engine w)) * bs /\
    (forall i, (i < length out)%nat -> (i < length logits)%nat ->
               out !! i = logits !! i) /\
    (forall i, (i < length out)%nat -> (length logits <= i)%nat ->
               out !! i = Some f32_zero) /\
    engine (snd (forward_pass toks logits bs w)) = engine w /\
    heap (host (snd (forward_pass toks logits bs w))) = heap (host w) /\
    cerr (host (snd (forward_pass toks logits bs w))) = cerr (host w).
Proof.
  intros Hn. eexists. split; [apply forward_pass_returns; exact Hn|].
  rewrite length_resize.
  split; [lia|].
  split; [intros i Hi Hl; apply resize_lookup_kept; assumption|].
  split; [intros i Hi Hl; apply resize_lookup_filled; assumption|].
  unfold forward_pass. repeat destruct (decide _); repeat split.
Qed.

Lemma forward_pass_logits_witness :
  exists out : list float32,
    fst (forward_pass [1; 2; 3] [f32_one; f32_0_7] 2 sample_world) =
      Returns (true, out) /\
    Z.of_nat (length out) = vocab_size (config_ (engine sample_world)) * 2 /\
    (forall i, (i < length out)%nat -> (i < length [f32_one; f32_0_7])%nat ->
               out !! i = [f32_one; f32_0_7] !! i) /\
    (forall i, (i < length out)%nat -> (length [f32_one; f32_0_7] <= i)%nat ->
               out !! i = Some f32_zero) /\
    engine (snd (forward_pass [1; 2; 3] [f32_one; f32_0_7] 2 sample_world)) =
      engine sample_world /\
    heap (host (snd (forward_pass [1; 2; 3] [f32_one; f32_0_7] 2 sample_world))) =
      heap (host sample_world) /\
    cerr (host (snd (forward_pass [1; 2; 3] [f32_one; f32_0_7] 2 sample_world))) =
      cerr (host sample_world).
Proof.
  apply (forward_pass_logits [1; 2; 3] [f32_one; f32_0_7] 2 sample_world).
  vm_compute. split; discriminate.
Defined.

(** X4.  The three outcomes of [forward_pass] on a reachable engine, by batch
    size (the vocabulary is 152064): a batch size from 0 to 14122 returns
    [true]; a batch size from -14122 to -1 makes [resize] throw
    [length_error]; any other [int] overflows the product, which is
    undefined behaviour.  A batch size of 0 returns [true] with no logits
    at all. *)
Theorem forward_pass_outcome_by_batch_size
    (cuda : bool) (toks : list Z) (logits : list float32) (bs : Z) (w : World) :
  reachable cuda w -> is_int bs ->
  (0 <= bs <= 14122 <->
     exists out, fst (forward_pass toks logits bs w) = Returns (true, out)) /\
  (-14122 <= bs < 0 <-> fst (forward_pass toks logits bs w) = Throws length_error) /\
  (bs < -14122 \/ 14122 < bs <-> fst (forward_pass toks logits bs w) = Undefined) /\
  (bs = 0 -> fst (forward_pass toks logits bs w) = Returns (true, [])).
Proof.
  intros Hreach Hbs. destruct (reachable_static cuda w Hreach) as (Hc & _ & _).
  assert (vocab_size (config_ (engine w)) = 152064) as Hv by (rewrite Hc; reflexivity).
  unfold is_int, INT_MIN, INT_MAX in Hbs.
  assert (2 ^ 31 <= (2 ^ 63 - 1) / 4) as Hmax by (apply Z.div_le_lower_bound; lia).
  destruct (decide (0 <= bs <= 14122)) as [Hin|Hout].
  - assert (fst (forward_pass toks logits bs w) =
            Returns (true, resize (Z.to_nat (152064 * bs)) f32_zero logits)) as E.
    { rewrite <- Hv. apply forward_pass_returns. rewrite Hv. unfold INT_MAX. lia. }
    rewrite E.
    split; [split; [eauto|intros _; exact Hin]|].
    split; [split; [lia|discriminate]|].
    split; [split; [lia|discriminate]|].
    intros ->. reflexivity.
  - unfold forward_pass. rewrite Hv. unfold INT_MIN, INT_MAX.
    destruct (decide (- 2 ^ 31 <= 152064 * bs <= 2 ^ 31 - 1)) as [Hfit|Hover]; simpl.
    + assert (size_of_int (152064 * bs) = 152064 * bs + 2 ^ 64) as Hconv.
      { unfold size_of_int, wrap_size_t.
        rewrite <- (Z.mod_add _ 1) by lia. apply Z.mod_small. lia. }
      rewrite decide_True
        by (rewrite Hconv; unfold vector_max_size, sizeof_float;
            assert ((2 ^ 63 - 1) / 4 < 2 ^ 62) by (apply Z.div_lt_upper_bound; lia);
            lia).
      simpl.
      split; [split; [lia|intros [out E]; discriminate]|].
      split; [split; [reflexivity|lia]|].
      split; [split; [lia|discriminate]|]. lia.
    + split; [split; [lia|intros [out E]; discriminate]|].
      split; [split; [lia|discriminate]|].
      split; [split; [reflexivity|lia]|]. lia.
Qed.

Lemma forward_pass_outcome_by_batch_size_witness :
  (0 <= -1 <= 14122 <->
     exists out, fst (forward_pass [1; 2; 3] [] (-1) sample_world) = Returns (true, out)) /\
  (-14122 <= -1 < 0 <->
     fst (forward_pass [1; 2; 3] [] (-1) sample_world) = Throws length_error) /\
  (-1 < -14122 \/ 14122 < -1 <->
     fst (forward_pass [1; 2; 3] [] (-1) sample_world) = Undefined) /\
  (-1 = 0 -> fst (forward_pass [1; 2; 3] [] (-1) sample_world) = Returns (true, [])).
Proof.
  apply (forward_pass_outcome_by_batch_size false [1; 2; 3] [] (-1) sample_world).
  - unfold sample_world. reach_by_evaluation.
  - by_evaluation.
Defined.

Lemma enumerates_empty (pairs : list (Z * Z)) : enumerates pairs ∅ -> pairs = [].
Proof.
  intros Henum. destruct pairs as [|[p sz] l]; [reflexivity|].
  assert (p ∈ ((p, sz) :: l).*1) as Hp by (simpl; apply list_elem_of_here).
  apply (enumerates_keys _ _ p Henum) in Hp as [x Hx].
  rewrite lookup_empty in Hx. discriminate.
Qed.

Lemma free_all_streams (pairs : list (Z * Z)) :
  forall h, cout (free_all pairs h) = cout h /\ cerr (free_all pairs h) = cerr h.
Proof.
  induction pairs as [|[p sz] l IH]; intros h; [split; reflexivity|].
  unfold free_all. simpl. fold (free_all l (free p h)).
  destruct (IH (free p h)) as [-> ->]. unfold free.
  destruct (decide _); [split; reflexivity|].
  destruct (heap h !! p); split; reflexivity.
Qed.

(** X5.  In the CUDA build no public method reaches the C heap: from a
    reachable world every well-formed call leaves the heap, the log of
    [free] calls and [memory_map_] (which is empty) as they were, and
    [allocate_gpu_memory] answers null to every request. *)
Theorem cuda_build_never_touches_the_heap (w : World) (c : call) :
  reachable true w -> call_ok true w c ->
  heap (host (exec true c w)) = heap (host w) /\
  free_log (host (exec true c w)) = free_log (host w) /\
  heap_ub (host (exec true c w)) = heap_ub (host w) /\
  memory_map_ (engine w) = ∅ /\
  memory_map_ (engine (exec true c w)) = ∅ /\
  (forall size dev r, fst (allocate_gpu_memory true r size dev w) = 0).
Proof.
  intros Hreach Hc.
  pose proof (reachable_cuda_memory_map w Hreach) as Hmm.
  pose proof (reachable_cuda_memory_map _ (reachable_call true w c Hreach Hc)) as Hmm'.
  assert (heap (host (exec true c w)) = heap (host w) /\
          free_log (host (exec true c w)) = free_log (host w) /\
          heap_ub (host (exec true c w)) = heap_ub (host w)) as (H1 & H2 & H3).
  { destruct c; simpl; try (repeat split; fail).
    - unfold initialize. repeat destruct (decide _); repeat split.
    - unfold setup_multi_gpu. destruct (decide _); repeat split.
    - unfold free_gpu_memory. destruct (decide _); repeat split.
    - unfold forward_pass. repeat destruct (decide _); repeat split.
    - unfold synchronize_gpus. destruct (decide _); repeat split.
    - simpl in Hc. rewrite Hmm in Hc. apply enumerates_empty in Hc. subst pairs.
      repeat split. }
  repeat split; assumption.
Qed.

Lemma cuda_build_never_touches_the_heap_witness :
  let w := run true [Call_initialize true; Call_allocate_gpu_memory 16 0 0]
             (construct true 8 fresh_host) in
  let c := Call_allocate_gpu_memory 32 1 0 in
  heap (host (exec true c w)) = heap (host w) /\
  free_log (host (exec true c w)) = free_log (host w) /\
  heap_ub (host (exec true c w)) = heap_ub (host w) /\
  memory_map_ (engine w) = ∅ /\
  memory_map_ (engine (exec true c w)) = ∅ /\
  (forall size dev r, fst (allocate_gpu_memory true r size dev w) = 0).
Proof.
  apply (cuda_build_never_touches_the_heap
           (run true [Call_initialize true; Call_allocate_gpu_memory 16 0 0]
              (construct true 8 fresh_host))
           (Call_allocate_gpu_memory 32 1 0)).
  - reach_by_evaluation.
  - by_evaluation.
Defined.

(** X6.  Every method only appends to [cout] and [cerr], and in the CPU build
    no method of the engine writes to [cerr] at all. *)
Theorem streams_are_append_only (cuda : bool) (c : call) (w : World) :
  (exists items, cout (host (exec cuda c w)) = cout (host w) ++ items) /\
  (exists items, cerr (host (exec cuda c w)) = cerr (host w) ++ items) /\
  (cuda = false -> cerr (host (exec cuda c w)) = cerr (host w)).
Proof.
  assert (forall l : list out_item, exists items, l = l ++ items) as Hnil
    by (intros l; exists []; symmetry; apply app_nil_r).
  destruct c; simpl; try (split; [eauto|split; [apply Hnil|reflexivity]]; fail).
  - unfold initialize. destruct cuda; [repeat destruct (decide _)|]; simpl.
    + split; [apply Hnil|]. split; [eauto|discriminate].
    + split; [apply Hnil|]. split; [eauto|discriminate].
    + split; [apply Hnil|]. split; [apply Hnil|reflexivity].
    + split; [eauto|]. split; [apply Hnil|reflexivity].
  - unfold setup_multi_gpu. destruct cuda; [destruct (decide _)|];
      (split; [apply Hnil|split; [apply Hnil|reflexivity]]).
  - unfold allocate_gpu_memory, malloc. destruct cuda; simpl.
    + split; [apply Hnil|split; [apply Hnil|reflexivity]].
    + destruct (decide (malloc_result ≠ 0)); destruct (decide (malloc_result = 0));
        simpl; (split; [apply Hnil|split; [apply Hnil|reflexivity]]).
  - unfold free_gpu_memory, free. destruct (decide _);
      [split; [apply Hnil|split; [apply Hnil|reflexivity]]|].
    destruct cuda; [split; [apply Hnil|split; [apply Hnil|reflexivity]]|].
    destruct (memory_map_ (engine w) !! ptr);
      [|split; [apply Hnil|split; [apply Hnil|reflexivity]]].
    simpl. destruct (heap (host w) !! ptr); simpl;
      (split; [apply Hnil|split; [apply Hnil|reflexivity]]).
  - unfold forward_pass. repeat destruct (decide _); simpl;
      (split; [eauto|split; [apply Hnil|reflexivity]]).
  - unfold warmup_kernels. destruct cuda; simpl;
      (split; [eauto|split; [apply Hnil|reflexivity]]).
  - unfold synchronize_gpus. destruct cuda; [destruct (decide _)|];
      (split; [apply Hnil|split; [apply Hnil|reflexivity]]).
  - unfold all_reduce_gradients. destruct cuda;
      (split; [apply Hnil|split; [apply Hnil|reflexivity]]).
  - unfold broadcast_weights. destruct cuda;
      (split; [apply Hnil|split; [apply Hnil|reflexivity]]).
  - unfold cleanup. simpl.
    destruct (free_all_streams pairs
                (print_cout [OStr "Cleaning up SOVREN Inference Engine..."; endl]
                   (host w))) as [-> ->].
    simpl. split; [eauto|split; [apply Hnil|reflexivity]].
Qed.

(** X7.  A call that is not [allocate_gpu_memory], [free_gpu_memory] or
    [cleanup] leaves the allocator alone: [memory_map_], the counter, the
    heap and the log of [free] calls are as before (so [generate_tokens],
    [forward_pass] and the rest neither leak nor release memory). *)
Theorem other_calls_leave_the_allocator_alone (cuda : bool) (c : call) (w : World) :
  is_allocator_call c = false ->
  memory_map_ (engine (exec cuda c w)) = memory_map_ (engine w) /\
  get_memory_usage (exec cuda c w) = get_memory_usage w /\
  heap (host (exec cuda c w)) = heap (host w) /\
  free_log (host (exec cuda c w)) = free_log (host w) /\
  heap_ub (host (exec cuda c w)) = heap_ub (host w).
Proof.
  intros Hc. unfold get_memory_usage.
  destruct c; try discriminate Hc; simpl; try (repeat split; fail).
  - unfold initialize. destruct cuda; [repeat destruct (decide _)|]; repeat split.
  - unfold setup_multi_gpu. destruct cuda; [destruct (decide _)|]; repeat split.
  - unfold forward_pass. repeat destruct (decide _); repeat split.
  - unfold warmup_kernels. destruct cuda; repeat split.
  - unfold synchronize_gpus. destruct cuda; [destruct (decide _)|]; repeat split.
  - unfold all_reduce_gradients. destruct cuda; repeat split.
  - unfold broadcast_weights. destruct cuda; repeat split.
Qed.

Lemma other_calls_leave_the_allocator_alone_witness :
  let c := Call_generate_tokens [1; 2; 3] [] 5 f32_zero f32_one in
  memory_map_ (engine (exec false c sample_world)) = memory_map_ (engine sample_world) /\
  get_memory_usage (exec false c sample_world) = get_memory_usage sample_world /\
  heap (host (exec false c sample_world)) = heap (host sample_world) /\
  free_log (host (exec false c sample_world)) = free_log (host sample_world) /\
  heap_ub (host (exec false c sample_world)) = heap_ub (host sample_world).
Proof.
  apply (other_calls_leave_the_allocator_alone false
           (Call_generate_tokens [1; 2; 3] [] 5 f32_zero f32_one) sample_world).
  reflexivity.
Defined.

Lemma resize_full {A : Type} (n : nat) (x : A) (v : list A) :
  length v = n -> resize n x v = v.
Proof.
  intros Hlen. unfold resize. rewrite take_ge by lia.
  replace (n - length v)%nat with 0%nat by lia. simpl. apply app_nil_r.
Qed.

Lemma initialize_cuda_nonneg (storage_ok : bool) (w : World) :
  0 <= num_gpus_ (engine w) <= INT_MAX ->
  storage_ok = true \/
  (Z.to_nat (num_gpus_ (engine w)) <= length (gpu_contexts_ (engine w)))%nat ->
  initialize true storage_ok w =
  (true,
   mkWorld
     (set_gpu_contexts
        (imap (fun i c => if decide (Z.of_nat i < num_gpus_ (engine w))
                          then set_device_id (Z.of_nat i) c else c)
           (resize (Z.to_nat (num_gpus_ (engine w))) zero_GPUContext
              (gpu_contexts_ (engine w))))
        (engine w))
     (host w)).
Proof.
  intros Hn Hroom. unfold INT_MAX in Hn.
  assert (2 ^ 31 <= (2 ^ 63 - 1) / 56) as Hlo by (apply Z.div_le_lower_bound; lia).
  unfold initialize.
  assert (size_of_int (num_gpus_ (engine w)) = num_gpus_ (engine w)) as ->
    by (unfold size_of_int; apply wrap_size_t_small; unfold SIZE_MAX; lia).
  rewrite decide_False by (unfold vector_max_size, sizeof_GPUContext; lia).
  rewrite decide_False; [reflexivity|].
  intros [Hgrow Hno]. destruct Hroom as [Hyes|Hfits]; [congruence|lia].
Qed.

Lemma initialize_cuda_negative (storage_ok : bool) (w : World) :
  INT_MIN <= num_gpus_ (engine w) < 0 ->
  initialize true storage_ok w =
  (false,
   with_host w (print_cerr [OStr "Failed to initialize CUDA: "; OWhat; endl]
                  (host w))).
Proof.
  intros Hn. unfold INT_MIN in Hn.
  assert ((2 ^ 63 - 1) / 56 < 2 ^ 58) as Hhi by (apply Z.div_lt_upper_bound; lia).
  unfold initialize.
  assert (size_of_int (num_gpus_ (engine w)) = num_gpus_ (engine w) + 2 ^ 64) as ->.
  { unfold size_of_int, wrap_size_t.
    rewrite <- (Z.mod_add _ 1) by lia. apply Z.mod_small. lia. }
  rewrite decide_True by (unfold vector_max_size, sizeof_GPUContext; lia).
  reflexivity.
Qed.

Lemma initialize_cuda_no_storage (w : World) :
  0 <= num_gpus_ (engine w) <= INT_MAX ->
  (length (gpu_contexts_ (engine w)) < Z.to_nat (num_gpus_ (engine w)))%nat ->
  initialize true false w =
  (false,
   with_host w (print_cerr [OStr "Failed to initialize CUDA: "; OWhat; endl]
                  (host w))).
Proof.
  intros Hn Hgrow. unfold INT_MAX in Hn.
  assert (2 ^ 31 <= (2 ^ 63 - 1) / 56) as Hlo by (apply Z.div_le_lower_bound; lia).
  unfold initialize.
  assert (size_of_int (num_gpus_ (engine w)) = num_gpus_ (engine w)) as ->
    by (unfold size_of_int; apply wrap_size_t_small; unfold SIZE_MAX; lia).
  rewrite decide_False by (unfold vector_max_size, sizeof_GPUContext; lia).
  rewrite decide_True by (split; [exact Hgrow|reflexivity]).
  reflexivity.
Qed.

(** The contexts a successful [initialize] leaves. *)
Lemma initialized_contexts (N : Z) (l : list GPUContext) :
  let L := imap (fun i c => if decide (Z.of_nat i < N)
                            then set_device_id (Z.of_nat i) c else c)
             (resize (Z.to_nat N) zero_GPUContext l) in
  length L = Z.to_nat N /\
  forall i c, L !! i = Some c -> device_id c = Z.of_nat i.
Proof.
  cbv zeta. split; [rewrite length_imap; apply length_resize|].
  intros i c Hi.
  assert (i < Z.to_nat N)%nat as Hlt.
  { apply lookup_lt_Some in Hi. rewrite length_imap, length_resize in Hi. exact Hi. }
  rewrite list_lookup_imap in Hi.
  destruct (resize _ _ _ !! i) as [c0|]; [|discriminate].
  cbn in Hi. inversion Hi; subst c.
  rewrite decide_True by lia. reflexivity.
Qed.

(** The three ways [initialize] can go in the CUDA build. *)
Lemma initialize_cuda_cases (storage_ok : bool) (w : World) :
  is_int (num_gpus_ (engine w)) ->
  (initialize true storage_ok w =
     (false,
      with_host w (print_cerr [OStr "Failed to initialize CUDA: "; OWhat; endl]
                     (host w))) /\
   (num_gpus_ (engine w) < 0 \/
    ((length (gpu_contexts_ (engine w)) < Z.to_nat (num_gpus_ (engine w)))%nat /\
     storage_ok = false))) \/
  (initialize true storage_ok w =
     (true,
      mkWorld
        (set_gpu_contexts
           (imap (fun i c => if decide (Z.of_nat i < num_gpus_ (engine w))
                             then set_device_id (Z.of_nat i) c else c)
              (resize (Z.to_nat (num_gpus_ (engine w))) zero_GPUContext
                 (gpu_contexts_ (engine w))))
           (engine w))
        (host w)) /\
   0 <= num_gpus_ (engine w) /\
   (storage_ok = true \/
    (Z.to_nat (num_gpus_ (engine w)) <= length (gpu_contexts_ (engine w)))%nat)).
Proof.
  intros Hint. unfold is_int, INT_MIN, INT_MAX in Hint.
  destruct (decide (num_gpus_ (engine w) < 0)) as [Hneg|Hpos].
  { left. split; [apply initialize_cuda_negative; unfold INT_MIN; lia|]. left. exact Hneg. }
  destruct (decide ((length (gpu_contexts_ (engine w)) <
                     Z.to_nat (num_gpus_ (engine w)))%nat)) as [Hgrow|Hfits].
  - destruct storage_ok.
    + right. split; [apply initialize_cuda_nonneg; [unfold INT_MAX; lia|left; reflexivity]|].
      split; [lia|left; reflexivity].
    + left. split; [apply initialize_cuda_no_storage; [unfold INT_MAX; lia|exact Hgrow]|].
      right. split; [exact Hgrow|reflexivity].
  - right. split; [apply initialize_cuda_nonneg; [unfold INT_MAX; lia|right; lia]|].
    split; [lia|right; lia].
Qed.

(** X8.  [initialize] in the CUDA build, for an [int] [num_gpus_].  It
    returns [true] exactly when the count is not negative and the context
    vector either need not grow or finds storage to grow.  Otherwise
    [resize] throws ([std::length_error] for a negative count,
    [std::bad_alloc] without storage), the handler reports on [cerr],
    [initialize] returns [false] and the engine is as it was.  On success
    there are exactly [num_gpus_] contexts, the i-th with [device_id] i;
    nothing else of the engine and nothing of the host changes, and a second
    [initialize], with or without storage, changes nothing more. *)
Theorem initialize_cuda_contexts (storage_ok : bool) (w : World) :
  is_int (num_gpus_ (engine w)) ->
  let res := initialize true storage_ok w in
  (fst res = true <->
   0 <= num_gpus_ (engine w) /\
   (storage_ok = true \/
    (Z.to_nat (num_gpus_ (engine w)) <= length (gpu_contexts_ (engine w)))%nat)) /\
  (fst res = false ->
     engine (snd res) = engine w /\
     cout (host (snd res)) = cout (host w) /\
     cerr (host (snd res)) =
       cerr (host w) ++ [OStr "Failed to initialize CUDA: "; OWhat; endl]) /\
  (fst res = true ->
     Z.of_nat (length (gpu_contexts_ (engine (snd res)))) = num_gpus_ (engine w) /\
     (forall i c, gpu_contexts_ (engine (snd res)) !! i = Some c ->
                  device_id c = Z.of_nat i) /\
     engine (snd res) = set_gpu_contexts (gpu_contexts_ (engine (snd res))) (engine w) /\
     host (snd res) = host w /\
     forall storage_ok', initialize true storage_ok' (snd res) = res).
Proof.
  intros Hint. cbv zeta.
  destruct (initialize_cuda_cases storage_ok w Hint) as [[-> Hwhy]|(-> & Hpos & Hroom)];
    cbn [fst snd].
  - split; [|split; [intros _; repeat split|discriminate]].
    split; [discriminate|]. intros [Hpos Hroom]. exfalso.
    destruct Hwhy as [Hneg|[Hgrow Hno]]; [lia|].
    destruct Hroom as [Hyes|Hfits]; [congruence|lia].
  - split; [tauto|]. split; [discriminate|]. intros _.
    cbn [engine host].
    set (N := num_gpus_ (engine w)) in *.
    destruct (initialized_contexts N (gpu_contexts_ (engine w))) as [HlenL Hids].
    set (f := fun (i : nat) (c : GPUContext) =>
                if decide (Z.of_nat i < N) then set_device_id (Z.of_nat i) c else c)
      in *.
    set (L := imap f (resize (Z.to_nat N) zero_GPUContext (gpu_contexts_ (engine w))))
      in *.
    change (gpu_contexts_ (set_gpu_contexts L (engine w))) with L.
    split; [lia|]. split; [exact Hids|]. split; [reflexivity|]. split; [reflexivity|].
    intros storage_ok'.
    rewrite initialize_cuda_nonneg;
      [|change (num_gpus_ (engine _)) with N;
        unfold is_int, INT_MIN, INT_MAX in Hint; unfold INT_MAX; lia
       |right; change (num_gpus_ (engine _)) with N;
        change (gpu_contexts_ (engine _)) with L; lia].
    cbn [engine host]. f_equal. f_equal.
    change (num_gpus_ (set_gpu_contexts L (engine w))) with N.
    change (gpu_contexts_ (set_gpu_contexts L (engine w))) with L.
    fold f. rewrite (resize_full _ _ L HlenL).
    assert (imap f L = L) as ->; [|reflexivity].
    apply list_eq. intros i. rewrite list_lookup_imap.
    destruct (L !! i) as [c|] eqn:E; [|reflexivity]. cbn. f_equal.
    pose proof (Hids i c E) as Hid. unfold f.
    destruct (decide _); [|reflexivity].
    destruct c. cbn in Hid. subst. reflexivity.
Qed.

Lemma initialize_cuda_contexts_witness :
  let w := construct true 2 fresh_host in
  let res := initialize true true w in
  (fst res = true <->
   0 <= num_gpus_ (engine w) /\
   (true = true \/
    (Z.to_nat (num_gpus_ (engine w)) <= length (gpu_contexts_ (engine w)))%nat)) /\
  (fst res = false ->
     engine (snd res) = engine w /\
     cout (host (snd res)) = cout (host w) /\
     cerr (host (snd res)) =
       cerr (host w) ++ [OStr "Failed to initialize CUDA: "; OWhat; endl]) /\
  (fst res = true ->
     Z.of_nat (length (gpu_contexts_ (engine (snd res)))) = num_gpus_ (engine w) /\
     (forall i c, gpu_contexts_ (engine (snd res)) !! i = Some c ->
                  device_id c = Z.of_nat i) /\
     engine (snd res) = set_gpu_contexts (gpu_contexts_ (engine (snd res))) (engine w) /\
     host (snd res) = host w /\
     forall storage_ok', initialize true storage_ok' (snd res) = res).
Proof.
  apply (initialize_cuda_contexts true (construct true 2 fresh_host)).
  by_evaluation.
Defined.

(** The two contexts of that engine, and the same request without storage. *)
Example initialize_cuda_two_gpus :
  initialize true true (construct true 2 fresh_host) =
    (true,
     mkWorld
       (set_gpu_contexts [mkGPUContext 0 0 0 0 0 0 0; mkGPUContext 1 0 0 0 0 0 0]
          (engine (construct true 2 fresh_host)))
       (host (construct true 2 fresh_host))) /\
  fst (initialize true false (construct true 2 fresh_host)) = false /\
  gpu_contexts_ (engine (snd (initialize true false (construct true 2 fresh_host)))) = [].
Proof. repeat split; vm_compute; reflexivity. Qed.

(** The largest count an [int] holds, without storage for that many
    contexts: [initialize] reports the failure and leaves no context. *)
Example initialize_cuda_int_max_without_storage :
  initialize true false (construct true 2147483647 fresh_host) =
  (false,
   with_host (construct true 2147483647 fresh_host)
     (print_cerr [OStr "Failed to initialize CUDA: "; OWhat; endl]
        (host (construct true 2147483647 fresh_host)))).
Proof.
  apply initialize_cuda_no_storage.
  - change (num_gpus_ (engine (construct true 2147483647 fresh_host))) with 2147483647.
    unfold INT_MAX. lia.
  - change (num_gpus_ (engine (construct true 2147483647 fresh_host))) with 2147483647.
    change (gpu_contexts_ (engine (construct true 2147483647 fresh_host)))
      with (@nil GPUContext).
    cbn [length]. lia.
Qed.

Lemma exec_num_gpus (cuda : bool) (c : call) (w : World) :
  num_gpus_ (engine (exec cuda c w)) = num_gpus_ (engine w) /\
  ((forall storage_ok, c ≠ Call_initialize storage_ok) \/ cuda = false ->
   gpu_contexts_ (engine (exec cuda c w)) = gpu_contexts_ (engine w)).
Proof.
  destruct c; simpl; try (split; [reflexivity|intros _; reflexivity]; fail).
  - unfold initialize. destruct cuda; [repeat destruct (decide _)|]; simpl;
      (split; [reflexivity|]); intros [H|H];
      solve [reflexivity | discriminate | exfalso; eapply H; reflexivity].
  - unfold setup_multi_gpu. destruct cuda; [destruct (decide _)|]; auto.
  - unfold allocate_gpu_memory. destruct cuda; [|destruct (decide _)]; auto.
  - unfold free_gpu_memory. destruct (decide _); [auto|].
    destruct cuda; [auto|]. destruct (memory_map_ (engine w) !! ptr); auto.
  - unfold forward_pass. repeat destruct (decide _); auto.
  - unfold warmup_kernels. destruct cuda; auto.
  - unfold synchronize_gpus. destruct cuda; [destruct (decide _)|]; auto.
  - unfold all_reduce_gradients. destruct cuda; auto.
  - unfold broadcast_weights. destruct cuda; auto.
Qed.

(** What every call keeps of the GPU bookkeeping of an engine constructed
    with an [int] count: the count itself, and contexts that are either
    absent or exactly that many, each with its index as [device_id]. *)
Lemma exec_gpu_bookkeeping (cuda : bool) (c : call) (w : World) (N : Z) :
  is_int N ->
  num_gpus_ (engine w) = N /\
  (cuda = false -> gpu_contexts_ (engine w) = []) /\
  (forall i c, gpu_contexts_ (engine w) !! i = Some c -> device_id c = Z.of_nat i) /\
  (gpu_contexts_ (engine w) = [] \/
   Z.of_nat (length (gpu_contexts_ (engine w))) = N) ->
  num_gpus_ (engine (exec cuda c w)) = N /\
  (cuda = false -> gpu_contexts_ (engine (exec cuda c w)) = []) /\
  (forall i c0, gpu_contexts_ (engine (exec cuda c w)) !! i = Some c0 ->
                device_id c0 = Z.of_nat i) /\
  (gpu_contexts_ (engine (exec cuda c w)) = [] \/
   Z.of_nat (length (gpu_contexts_ (engine (exec cuda c w)))) = N).
Proof.
  intros Hint (HN & Hcpu & Hids & Hlen).
  destruct (exec_num_gpus cuda c w) as [Hn Hg]. rewrite Hn.
  split; [exact HN|].
  assert ((exists storage_ok, c = Call_initialize storage_ok) /\ cuda = true \/
          ((forall storage_ok, c ≠ Call_initialize storage_ok) \/ cuda = false))
    as [[[storage_ok ->] ->]|Hsame].
  { destruct cuda; [|right; right; reflexivity].
    destruct c; try (right; left; intros ?; discriminate).
    left. split; [eexists; reflexivity|reflexivity]. }
  2: { rewrite (Hg Hsame). repeat split; assumption. }
  split; [discriminate|]. cbn [exec].
  assert (is_int (num_gpus_ (engine w))) as Hint' by (rewrite HN; exact Hint).
  destruct (initialize_cuda_cases storage_ok w Hint') as [[-> _]|(-> & Hpos & _)];
    cbn [snd engine with_host gpu_contexts_ set_gpu_contexts].
  - split; assumption.
  - destruct (initialized_contexts (num_gpus_ (engine w)) (gpu_contexts_ (engine w)))
      as [HlenL HidsL].
    split; [exact HidsL|]. right. rewrite HlenL. lia.
Qed.

(** X9.  Whatever calls follow the construction of an engine with an [int]
    count, no method changes [num_gpus_]: it stays what the constructor set,
    the count it was given in the CUDA build and 0 in the CPU build.  In the
    CPU build there is no GPU context; in either build the contexts are
    either absent or exactly [num_gpus_] many, each with its own index as
    [device_id]. *)
Theorem gpu_count_and_contexts (cuda : bool) (num_gpus : Z) (h : Host) (cs : list call) :
  is_int num_gpus ->
  let w := run cuda cs (construct cuda num_gpus h) in
  get_num_gpus w = (if cuda then num_gpus else 0) /\
  (cuda = false -> gpu_contexts_ (engine w) = []) /\
  (forall i c, gpu_contexts_ (engine w) !! i = Some c ->
               device_id c = Z.of_nat i /\ Z.of_nat i < get_num_gpus w) /\
  (gpu_contexts_ (engine w) = [] \/
   Z.of_nat (length (gpu_contexts_ (engine w))) = get_num_gpus w).
Proof.
  intros Hint. cbv zeta. unfold get_num_gpus.
  set (N := if cuda then num_gpus else 0).
  assert (is_int N) as HintN
    by (subst N; destruct cuda; [exact Hint|unfold is_int, INT_MIN, INT_MAX; lia]).
  assert (forall w,
            num_gpus_ (engine w) = N /\
            (cuda = false -> gpu_contexts_ (engine w) = []) /\
            (forall i c, gpu_contexts_ (engine w) !! i = Some c ->
                         device_id c = Z.of_nat i) /\
            (gpu_contexts_ (engine w) = [] \/
             Z.of_nat (length (gpu_contexts_ (engine w))) = N) ->
            num_gpus_ (engine (run cuda cs w)) = N /\
            (cuda = false -> gpu_contexts_ (engine (run cuda cs w)) = []) /\
            (forall i c, gpu_contexts_ (engine (run cuda cs w)) !! i = Some c ->
                         device_id c = Z.of_nat i) /\
            (gpu_contexts_ (engine (run cuda cs w)) = [] \/
             Z.of_nat (length (gpu_contexts_ (engine (run cuda cs w)))) = N)) as Hrun.
  { induction cs as [|c cs IH]; intros w Hw; [exact Hw|].
    simpl. apply IH. apply exec_gpu_bookkeeping; assumption. }
  destruct (Hrun (construct cuda num_gpus h)) as (HN & Hcpu & Hids & Hlen).
  { subst N. unfold construct. destruct cuda; simpl;
      (split; [reflexivity|]); (split; [auto|]); (split; [|left; reflexivity]);
      intros i c Hi; discriminate. }
  rewrite HN. split; [reflexivity|]. split; [exact Hcpu|]. split; [|exact Hlen].
  intros i c Hi. split; [apply Hids; exact Hi|].
  apply lookup_lt_Some in Hi.
  destruct Hlen as [Hnil|Hlen]; [rewrite Hnil in Hi; simpl in Hi; lia|lia].
Qed.

Lemma gpu_count_and_contexts_witness :
  let w := run true [Call_initialize true; Call_allocate_gpu_memory 16 0 0;
                     Call_initialize false]
             (construct true 2 fresh_host) in
  get_num_gpus w = 2 /\
  (true = false -> gpu_contexts_ (engine w) = []) /\
  (forall i c, gpu_contexts_ (engine w) !! i = Some c ->
               device_id c = Z.of_nat i /\ Z.of_nat i < get_num_gpus w) /\
  (gpu_contexts_ (engine w) = [] \/
   Z.of_nat (length (gpu_contexts_ (engine w))) = get_num_gpus w).
Proof.
  apply (gpu_count_and_contexts true 2 fresh_host
           [Call_initialize true; Call_allocate_gpu_memory 16 0 0;
            Call_initialize false]).
  by_evaluation.
Defined.

(** X10.  After [cleanup] the engine holds no pointer: a later
    [free_gpu_memory] on any pointer (a stale one included) changes nothing,
    and a second [cleanup], as the destructor runs it, finds no pair, frees
    nothing and leaves the engine and the heap as the first one left them. *)
Theorem cleanup_then_destructor_frees_nothing
    (cuda : bool) (w : World) (pairs pairs' : list (Z * Z)) :
  reachable cuda w ->
  enumerates pairs (memory_map_ (engine w)) ->
  enumerates pairs' (memory_map_ (engine (cleanup pairs w))) ->
  let w1 := cleanup pairs w in
  let w2 := destruct_engine pairs' w1 in
  pairs' = [] /\
  (forall p, free_gpu_memory cuda p w1 = w1) /\
  engine w2 = engine w1 /\
  heap (host w2) = heap (host w1) /\
  free_log (host w2) = free_log (host w1) /\
  heap_ub (host w2) = false.
Proof.
  intros Hreach Henum Henum' w1 w2.
  assert (reachable cuda w1) as Hreach1
    by (apply (reachable_call cuda w (Call_cleanup pairs)); assumption).
  destruct (reachable_tracked cuda w1 Hreach1) as [[_ Hub] _].
  apply enumerates_empty in Henum'. subst pairs'.
  split; [reflexivity|].
  split; [intros p; apply free_gpu_memory_unknown; apply lookup_empty|].
  subst w2. unfold destruct_engine, cleanup at 1. simpl.
  repeat split. exact Hub.
Qed.

Lemma cleanup_then_destructor_frees_nothing_witness :
  let pairs := [(8192, 32); (12288, 64)] in
  let w1 := cleanup pairs sample_world in
  let w2 := destruct_engine [] w1 in
  [] = ([] : list (Z * Z)) /\
  (forall p, free_gpu_memory false p w1 = w1) /\
  engine w2 = engine w1 /\
  heap (host w2) = heap (host w1) /\
  free_log (host w2) = free_log (host w1) /\
  heap_ub (host w2) = false.
Proof.
  apply (cleanup_then_destructor_frees_nothing false sample_world
           [(8192, 32); (12288, 64)] []).
  - unfold sample_world. reach_by_evaluation.
  - by_evaluation.
  - by_evaluation.
Defined.

Lemma cleanup_order_irrelevant_witness :
  let pairs := [(8192, 32); (12288, 64)] in
  let pairs' := [(12288, 64); (8192, 32)] in
  engine (cleanup pairs sample_world) = engine (cleanup pairs' sample_world) /\
  heap (host (cleanup pairs sample_world)) = heap (host (cleanup pairs' sample_world)) /\
  heap_ub (host (cleanup pairs sample_world)) =
    heap_ub (host (cleanup pairs' sample_world)) /\
  free_log (host (cleanup pairs sample_world)) ≡ₚ
    free_log (host (cleanup pairs' sample_world)).
Proof.
  apply (cleanup_order_irrelevant false sample_world
           [(8192, 32); (12288, 64)] [(12288, 64); (8192, 32)]).
  - unfold sample_world. reach_by_evaluation.
  - by_evaluation.
  - by_evaluation.
Defined.

(** X12.  The allocator calls are local to their pointer: in the CPU build
    [free_gpu_memory(p)] and an [allocate_gpu_memory] that [malloc] serves at
    [r] leave the entry of every other pointer [q], in [memory_map_] and in
    the heap, as it was. *)
Theorem allocator_calls_are_local (w : World) (p r q size dev : Z) :
  q ≠ p -> q ≠ r ->
  memory_map_ (engine (free_gpu_memory false p w)) !! q = memory_map_ (engine w) !! q /\
  heap (host (free_gpu_memory false p w)) !! q = heap (host w) !! q /\
  memory_map_ (engine (snd (allocate_gpu_memory false r size dev w))) !! q =
    memory_map_ (engine w) !! q /\
  heap (host (snd (allocate_gpu_memory false r size dev w))) !! q = heap (host w) !! q.
Proof.
  intros Hp Hr. split; [|split]; [| |split].
  - unfold free_gpu_memory. destruct (decide _); [reflexivity|].
    destruct (memory_map_ (engine w) !! p); [|reflexivity].
    simpl. apply lookup_delete_ne. auto.
  - unfold free_gpu_memory, free. destruct (decide _); [reflexivity|].
    destruct (memory_map_ (engine w) !! p); [|reflexivity]. simpl.
    destruct (heap (host w) !! p); [|reflexivity].
    simpl. apply lookup_delete_ne. auto.
  - unfold allocate_gpu_memory. destruct (decide _); [|reflexivity].
    simpl. apply lookup_insert_ne. auto.
  - unfold allocate_gpu_memory, malloc.
    destruct (decide (r ≠ 0)); destruct (decide (r = 0)); simpl;
      try reflexivity; apply lookup_insert_ne; auto.
Qed.

Lemma allocator_calls_are_local_witness :
  memory_map_ (engine (free_gpu_memory false 8192 sample_world)) !! 12288 =
    memory_map_ (engine sample_world) !! 12288 /\
  heap (host (free_gpu_memory false 8192 sample_world)) !! 12288 =
    heap (host sample_world) !! 12288 /\
  memory_map_ (engine (snd (allocate_gpu_memory false 65536 7 0 sample_world))) !! 12288 =
    memory_map_ (engine sample_world) !! 12288 /\
  heap (host (snd (allocate_gpu_memory false 65536 7 0 sample_world))) !! 12288 =
    heap (host sample_world) !! 12288.
Proof.
  apply (allocator_calls_are_local sample_world 8192 65536 12288 7 0); lia.
Defined.

(** * The program *)

Lemma main_after_initialize_result (cuda : bool) (num_gpus : Z) (argv : list string)
    (init_ms inference_us : Z) (rate : string) (w : World) :
  memory_map_ (engine w) = ∅ ->
  exists out : list out_item,
    main_after_initialize cuda num_gpus argv init_ms inference_us rate w =
    (0, mkHost (heap (host w)) (free_log (host w)) (heap_ub (host w)) out
          (cerr (host w))).
Proof.
  intros Hmm.
  assert (forall h : Host, free_all (map_to_list (memory_map_ (engine w))) h = h) as Hfree
    by (intros h; rewrite Hmm, map_to_list_empty; reflexivity).
  unfold main_after_initialize.
  destruct (decide (1 < num_gpus)); destruct cuda;
    cbv beta iota zeta delta
      [load_model setup_multi_gpu generate_tokens validate_model_integrity
       warmup_kernels optimize_for_throughput print_performance_stats
       destruct_engine cleanup with_host print_cout print_cerr set_memory
       negb fst snd engine host heap free_log heap_ub cerr
       config_ gpu_contexts_ num_gpus_ tensor_parallel_size_
       pipeline_parallel_size_ total_memory_allocated_ memory_map_
       performance_metrics_];
    try (match goal with
         | |- context [decide (?a <= 1)] => destruct (decide (a <= 1))
         end);
    cbv beta iota zeta delta [negb fst snd engine host heap free_log heap_ub cerr];
    rewrite Hfree; eexists; reflexivity.
Qed.

Lemma stoi_is_int (s : string) (n : Z) : stoi s = inl n -> is_int n.
Proof.
  unfold stoi. destruct (match skip_spaces s with
                         | String "-" rest => (true, rest)
                         | String "+" rest => (false, rest)
                         | _ => (false, skip_spaces s)
                         end) as [negative s'].
  destruct (has_digit s'); [|discriminate].
  destruct (decide _) as [Hfit|]; [|discriminate].
  intros E. inversion E; subst. exact Hfit.
Qed.

Lemma requested_num_gpus_is_int (argv : list string) (n : Z) :
  requested_num_gpus argv = inl n -> is_int n.
Proof.
  unfold requested_num_gpus. destruct (decide _); [apply stoi_is_int|].
  intros E. inversion E. unfold is_int, INT_MIN, INT_MAX. lia.
Qed.

(** What [main] leaves behind, by cases on the count it asks for. *)
Lemma main_result (cuda ndebug : bool) (argv : list string) (storage_ok : bool)
    (init_ms inference_us : Z) (rate : string) (h : Host) :
  exists (code : Z) (out err : list out_item),
    main cuda ndebug argv storage_ok init_ms inference_us rate h =
    (code, mkHost (heap h) (free_log h) (heap_ub h) out (cerr h ++ err)) /\
    ((code = 0 /\ err = [] /\
      exists n, requested_num_gpus argv = inl n /\
                (cuda = false \/ n = 0 \/ (0 < n /\ storage_ok = true))) \/
     (code = -1 /\ err ≠ [] /\
      ((exists e, requested_num_gpus argv = inr e) \/
       (exists n, requested_num_gpus argv = inl n /\ cuda = true /\
                  (n < 0 \/ (0 < n /\ storage_ok = false)))))).
Proof.
  unfold main. cbv zeta.
  remember (print_cout _ (print_system_info cuda ndebug (print_banner h))) as h3 eqn:Hh3.
  assert (heap h3 = heap h /\ free_log h3 = free_log h /\ heap_ub h3 = heap_ub h /\
          cerr h3 = cerr h) as (Hh & Hl & Hu & He)
    by (subst h3; unfold print_system_info; destruct cuda; repeat split).
  clear Hh3.
  destruct (requested_num_gpus argv) as [n|e] eqn:Hreq.
  - pose proof (requested_num_gpus_is_int argv n Hreq) as Hint.
    unfold is_int, INT_MIN, INT_MAX in Hint.
    destruct cuda;
      [destruct (initialize_cuda_cases storage_ok (construct true n h3))
         as [[-> Hwhy]|(-> & Hpos & Hroom)];
       [unfold is_int, INT_MIN, INT_MAX; cbn; lia| |]|].
    + cbn [negb]. unfold destruct_engine, cleanup.
      cbn [engine host with_host construct memory_map_ set_memory].
      rewrite map_to_list_empty.
      cbn [free_all fold_left]. unfold print_cout, print_cerr.
      cbn [heap free_log heap_ub cout cerr].
      rewrite Hh, Hl, Hu, He, <- (app_assoc (cerr h)).
      eexists _, _, _. split; [reflexivity|].
      right. split; [reflexivity|]. split; [discriminate|]. right.
      exists n. split; [reflexivity|]. split; [reflexivity|].
      cbn [engine construct num_gpus_ gpu_contexts_ length] in Hwhy.
      destruct Hwhy as [Hneg|[Hgrow Hno]]; [left; exact Hneg|right; split; [lia|exact Hno]].
    + cbn [negb].
      match goal with
      | |- context [main_after_initialize ?c ?g ?a ?i ?u ?r ?w] =>
          destruct (main_after_initialize_result c g a i u r w eq_refl) as [out ->]
      end.
      unfold construct, print_cout. cbn [engine host heap free_log heap_ub cout cerr].
      rewrite Hh, Hl, Hu, He.
      exists 0, out, []. rewrite app_nil_r. split; [reflexivity|].
      left. split; [reflexivity|]. split; [reflexivity|].
      exists n. split; [reflexivity|]. right.
      cbn [engine construct num_gpus_ gpu_contexts_ length] in Hpos, Hroom.
      destruct Hroom as [Hyes|Hfits]; [|left; lia].
      destruct (decide (n = 0)); [left; assumption|right; split; [lia|exact Hyes]].
    + unfold initialize. cbn [negb].
      match goal with
      | |- context [main_after_initialize ?c ?g ?a ?i ?u ?r ?w] =>
          destruct (main_after_initialize_result c g a i u r w eq_refl) as [out ->]
      end.
      unfold construct, with_host, print_cout.
      cbn [engine host heap free_log heap_ub cout cerr].
      rewrite Hh, Hl, Hu, He.
      exists 0, out, []. rewrite app_nil_r. split; [reflexivity|].
      left. split; [reflexivity|]. split; [reflexivity|].
      exists n. split; [reflexivity|]. left. reflexivity.
  - unfold print_cerr. cbn [heap free_log heap_ub cout cerr]. rewrite Hh, Hl, Hu, He.
    eexists _, _, _. split; [reflexivity|].
    right. split; [reflexivity|]. split; [discriminate|]. left. eauto.
Qed.

(** X13.  The exit status of [main] is 0 or -1.  It is 0 exactly when the
    GPU count asked for is there (no argument, so 8, or an [argv[1]] that
    [std::stoi] accepts) and [initialize] succeeds: always in the CPU build,
    and in the CUDA build when the count is 0, or positive with storage for
    that many contexts.  It is -1 when [std::stoi] throws, and in the CUDA
    build when the count is negative or is positive without storage for the
    contexts.  The durations and the second argument play no part. *)
Theorem main_exit_status (cuda ndebug : bool) (argv : list string) (storage_ok : bool)
    (init_ms inference_us : Z) (rate : string) (h : Host) :
  let code := fst (main cuda ndebug argv storage_ok init_ms inference_us rate h) in
  (code = 0 \/ code = -1) /\
  (code = 0 <->
   exists n, requested_num_gpus argv = inl n /\
             (cuda = false \/ n = 0 \/ (0 < n /\ storage_ok = true))) /\
  (code = -1 <->
   (exists e, requested_num_gpus argv = inr e) \/
   (exists n, requested_num_gpus argv = inl n /\ cuda = true /\
              (n < 0 \/ (0 < n /\ storage_ok = false)))).
Proof.
  cbv zeta.
  destruct (main_result cuda ndebug argv storage_ok init_ms inference_us rate h)
    as (code & out & err & -> & [(-> & _ & Hok)|(-> & _ & Hbad)]); cbn [fst].
  - split; [left; reflexivity|]. split; [tauto|].
    split; [discriminate|]. intros H. exfalso.
    destruct Hok as (n & Hn & Hc).
    destruct H as [[e He]|(n' & Hn' & -> & Hwhy)]; [congruence|].
    rewrite Hn in Hn'. inversion Hn'; subst.
    destruct Hc as [Hc|[Hc|[Hc Hs]]]; [discriminate| |];
      destruct Hwhy as [Hw|[Hw Hs']]; try lia; congruence.
  - split; [right; reflexivity|]. split; [|tauto].
    split; [discriminate|]. intros (n & Hn & Hc). exfalso.
    destruct Hbad as [[e He]|(n' & Hn' & -> & Hwhy)]; [congruence|].
    rewrite Hn in Hn'. inversion Hn'; subst.
    destruct Hc as [Hc|[Hc|[Hc Hs]]]; [discriminate| |];
      destruct Hwhy as [Hw|[Hw Hs']]; try lia; congruence.
Qed.

(** X14.  [main] leaves the C heap as it found it: it allocates nothing,
    frees nothing, and the destructor of its engine finds nothing to free.
    It writes to [cerr] exactly when it exits with -1. *)
Theorem main_leaves_the_heap_alone (cuda ndebug : bool) (argv : list string)
    (storage_ok : bool) (init_ms inference_us : Z) (rate : string) (h : Host) :
  let res := main cuda ndebug argv storage_ok init_ms inference_us rate h in
  heap (snd res) = heap h /\
  free_log (snd res) = free_log h /\
  heap_ub (snd res) = heap_ub h /\
  (exists err, cerr (snd res) = cerr h ++ err) /\
  (cerr (snd res) = cerr h <-> fst res = 0).
Proof.
  cbv zeta.
  destruct (main_result cuda ndebug argv storage_ok init_ms inference_us rate h)
    as (code & out & err & -> & Hcases); cbn [fst snd heap free_log heap_ub cerr].
  split; [reflexivity|]. split; [reflexivity|]. split; [reflexivity|].
  split; [eauto|].
  destruct Hcases as [(-> & -> & _)|(-> & Herr & _)].
  - rewrite app_nil_r. tauto.
  - split; [|discriminate]. intros E. exfalso. apply Herr.
    rewrite <- (app_nil_r (cerr h)) in E at 2. apply app_inv_head in E. exact E.
Qed.

(** Some arguments and what [main] makes of them. *)
Example requested_num_gpus_samples :
  requested_num_gpus ["engine"] = inl 8 /\
  requested_num_gpus ["engine"; "4"] = inl 4 /\
  requested_num_gpus ["engine"; "  -3 GPUs"] = inl (-3) /\
  requested_num_gpus ["engine"; "four"] = inr invalid_argument /\
  requested_num_gpus ["engine"; "2147483648"] = inr out_of_range.
Proof. repeat split; vm_compute; reflexivity. Qed.

Example main_exit_status_samples :
  fst (main false false ["engine"; "-3"] true 0 1 "5e+06" fresh_host) = 0 /\
  fst (main true false ["engine"; "-3"] true 0 1 "5e+06" fresh_host) = -1 /\
  fst (main true false ["engine"; "4"; "model.bin"] true 0 1 "5e+06" fresh_host) = 0 /\
  fst (main true false ["engine"; "4"; "model.bin"] false 0 1 "5e+06" fresh_host) = -1 /\
  fst (main false true ["engine"; "four"] true 0 1 "5e+06" fresh_host) = -1.
Proof. repeat split; vm_compute; reflexivity. Qed.
